(** * The Claude CLI wrapper (worker/claude-wrapper.py)

    A shallow embedding of the [ClaudeWrapper] class: the session store
    ([load_session], [save_session]), the chat dispatcher ([chat]) and the
    command line front end ([handle_command], [main]), followed by the
    properties of the session history and of the request assembly.

    Conventions.  A Python [str] is a [string]; each character stands for one
    code point (the range below 256).  The process environment and the file
    system are finite maps.  Methods that mutate [self] take the wrapper and
    return the updated one.  Output, file writes and calls to the remote API
    are recorded in a [world] that is threaded through every method.  File
    operations succeed, except [os.makedirs] on the empty path, and a write
    replaces the content of a file in one step.  The messages of Python's own
    exceptions are those of Python 3.11. *)

From Corelib Require PrimFloat.
From Stdlib Require Import ZArith Ascii String List Lia.
From stdpp Require Import base option list strings gmap.

Local Open Scope string_scope.
Local Open Scope list_scope.

(** ** Strings *)

Definition nl : string := String (ascii_of_nat 10) EmptyString.
Definition dq : string := String (ascii_of_nat 34) EmptyString.

(** [bool(s)] of a string: the empty string is falsy. *)
Definition str_truthy (s : string) : bool :=
  match s with EmptyString => false | String _ _ => true end.

(** [str.isspace] on one character, for the code points below 256. *)
Definition is_space (c : ascii) : bool :=
  let n := nat_of_ascii c in
  (Nat.leb 9 n && Nat.leb n 13) || (Nat.leb 28 n && Nat.leb n 32)
  || Nat.eqb n 133 || Nat.eqb n 160.

Fixpoint lstrip (s : string) : string :=
  match s with
  | EmptyString => EmptyString
  | String c r => if is_space c then lstrip r else s
  end.

Fixpoint rstrip (s : string) : string :=
  match s with
  | EmptyString => EmptyString
  | String c r =>
      match rstrip r with
      | EmptyString => if is_space c then EmptyString else String c EmptyString
      | r' => String c r'
      end
  end.

(** [s.strip()] *)
Definition strip (s : string) : string := rstrip (lstrip s).

(** [sep.join(l)] *)
Fixpoint join (sep : string) (l : list string) : string :=
  match l with
  | [] => EmptyString
  | [x] => x
  | x :: r => x +:+ sep +:+ join sep r
  end.

(** [s[:n]] *)
Fixpoint str_take (n : nat) (s : string) : string :=
  match n, s with
  | S n', String c r => String c (str_take n' r)
  | _, _ => EmptyString
  end.

(** [s[-n:]] for [n > 0] *)
Definition str_slice_last (n : nat) (s : string) : string :=
  String.substring (String.length s - n) n s.

(** [l[-n:]] for [n > 0]: the last [n] entries, all of them when the list
    is shorter. *)
Definition slice_last {A} (n : nat) (l : list A) : list A :=
  drop (length l - n) l.

(** [x in l] on a list of strings *)
Definition mem (x : string) (l : list string) : bool :=
  existsb (String.eqb x) l.

(** [l.remove(x)] when [x in l]: drops the first occurrence. *)
Fixpoint remove_first (x : string) (l : list string) : list string :=
  match l with
  | [] => []
  | y :: r => if String.eqb x y then r else y :: remove_first x r
  end.

(** ** Paths (posixpath) *)

Definition slash : ascii := ascii_of_nat 47.

Definition starts_with_slash (s : string) : bool :=
  match s with String c _ => Ascii.eqb c slash | EmptyString => false end.

Fixpoint ends_with_slash (s : string) : bool :=
  match s with
  | EmptyString => false
  | String c EmptyString => Ascii.eqb c slash
  | String _ r => ends_with_slash r
  end.

(** [os.path.join(a, b)] *)
Definition os_path_join (a b : string) : string :=
  if starts_with_slash b then b
  else if negb (str_truthy a) || ends_with_slash a then a +:+ b
  else a +:+ String slash EmptyString +:+ b.

(** [p[:p.rfind('/') + 1]] *)
Fixpoint path_head (p : string) : string :=
  match p with
  | EmptyString => EmptyString
  | String c r =>
      match path_head r with
      | EmptyString => if Ascii.eqb c slash then String c EmptyString else EmptyString
      | h => String c h
      end
  end.

Fixpoint all_slashes (s : string) : bool :=
  match s with
  | EmptyString => true
  | String c r => Ascii.eqb c slash && all_slashes r
  end.

Fixpoint rstrip_slashes (s : string) : string :=
  match s with
  | EmptyString => EmptyString
  | String c r =>
      match rstrip_slashes r with
      | EmptyString => if Ascii.eqb c slash then EmptyString else String c EmptyString
      | r' => String c r'
      end
  end.

(** [os.path.dirname(p)] *)
Definition os_path_dirname (p : string) : string :=
  let head := path_head p in
  if str_truthy head && negb (all_slashes head) then rstrip_slashes head else head.

(** ** Integers from text: [int(s)] *)

Definition digit_of (c : ascii) : option Z :=
  let n := nat_of_ascii c in
  if Nat.leb 48 n && Nat.leb n 57 then Some (Z.of_nat (n - 48)) else None.

(** Digits with single underscores between them. *)
Fixpoint digits_acc (acc : Z) (after_digit : bool) (s : string) : option Z :=
  match s with
  | EmptyString => if after_digit then Some acc else None
  | String c r =>
      match digit_of c with
      | Some d => digits_acc (10 * acc + d) true r
      | None =>
          if Ascii.eqb c (ascii_of_nat 95) && after_digit
          then digits_acc acc false r
          else None
      end
  end.

Definition py_int (s : string) : option Z :=
  match strip s with
  | String c r =>
      if Ascii.eqb c (ascii_of_nat 45) then Z.opp <$> digits_acc 0 false r
      else if Ascii.eqb c (ascii_of_nat 43) then digits_acc 0 false r
      else digits_acc 0 false (String c r)
  | EmptyString => None
  end.

(** ** Python values

    What [json.load] can return, and therefore what
    [self.conversation_history] can hold: [None], booleans, integers, floats,
    strings, lists and dictionaries with string keys (kept in insertion
    order, which is the order [json.dump] writes them in). *)

#[local] Set Warnings "-register-all".

Inductive json : Type :=
| JNull
| JBool (b : bool)
| JInt (n : Z)
| JFloat (f : PrimFloat.float)
| JStr (s : string)
| JArr (l : list json)
| JObj (kv : list (string * json)).

(** [bool(v)] *)
Definition py_truthy (v : json) : bool :=
  match v with
  | JNull => false
  | JBool b => b
  | JInt n => negb (Z.eqb n 0)
  | JFloat f => negb (PrimFloat.eqb f PrimFloat.zero)
  | JStr s => str_truthy s
  | JArr l => match l with [] => false | _ => true end
  | JObj kv => match kv with [] => false | _ => true end
  end.

(** [type(v).__name__] *)
Definition type_name (v : json) : string :=
  match v with
  | JNull => "NoneType"
  | JBool _ => "bool"
  | JInt _ => "int"
  | JFloat _ => "float"
  | JStr _ => "str"
  | JArr _ => "list"
  | JObj _ => "dict"
  end.

(** [d[k]] on the entries of a dictionary *)
Fixpoint dict_get (k : string) (kv : list (string * json)) : option json :=
  match kv with
  | [] => None
  | (k', v) :: r => if String.eqb k k' then Some v else dict_get k r
  end.

(** [v == s] for a string literal [s] *)
Definition eq_str (v : json) (s : string) : bool :=
  match v with JStr s' => String.eqb s' s | _ => false end.

(** The dictionary literal [{"role": role, "content": content}]. *)
Definition message_dict (role content : string) : json :=
  JObj [("role", JStr role); ("content", JStr content)].

(** ** Exceptions and results *)

(** An exception below [Exception]: its class and [str(e)]. *)
Record exn := Exn { exn_class : string; exn_str : string }.

(** How a method ends: it returns, an exception propagates, or
    [sys.exit(code)] was called ([SystemExit] is not an [Exception]). *)
Inductive result (A : Type) : Type :=
| Ok (a : A)
| Raise (e : exn)
| Exit (code : Z).
Arguments Ok {A} a.
Arguments Raise {A} e.
Arguments Exit {A} code.

(** ** The remote collaborator *)

Record request := Request {
  req_model : string;
  req_max_tokens : Z;
  req_messages : list json
}.

(** A content block of a response: [TextBlock] has a [text] attribute, a
    block of another class has none. *)
Inductive block : Type :=
| TextBlock (text : string)
| OtherBlock (class_name : string).

(** The client: [messages.create] returns the content blocks of a response
    or raises; [messages.stream] yields text fragments and may raise after
    the ones it has delivered (with none delivered when opening fails). *)
Record api := Api {
  messages_create : request -> exn + list block;
  messages_stream : request -> list string * option exn
}.

Inductive call : Type :=
| Create (r : request)
| Stream (r : request).

(** ** The world of one process *)

Record world := World {
  files : gmap string string;   (* path to content, regular files *)
  out : list string;            (* what was written to sys.stdout, in order *)
  err : list string;            (* what was written to sys.stderr, in order *)
  calls : list call             (* requests issued to the remote API *)
}.

Record stdin_t := Stdin { isatty : bool; data : string }.

Definition M (A : Type) : Type := world -> result A * world.

Definition ret {A} (a : A) : M A := fun s => (Ok a, s).

Definition bind {A B} (m : M A) (k : A -> M B) : M B :=
  fun s =>
    match m s with
    | (Ok a, s') => k a s'
    | (Raise e, s') => (Raise e, s')
    | (Exit c, s') => (Exit c, s')
    end.

Notation "x <- m ;; k" := (bind m (fun x => k))
  (at level 100, m at next level, right associativity).
Notation "m >> k" := (bind m (fun _ => k))
  (at level 100, right associativity).

Definition raise {A} (e : exn) : M A := fun s => (Raise e, s).

(** [sys.exit(code)] *)
Definition sys_exit {A} (code : Z) : M A := fun s => (Exit code, s).

(** [try: body / except Exception as e: handler e] *)
Definition try_except_Exception {A} (body : M A) (handler : exn -> M A) : M A :=
  fun s =>
    match body s with
    | (Raise e, s') => handler e s'
    | r => r
    end.

(** [try: body / except: handler] (a bare [except] also catches
    [SystemExit]) *)
Definition try_except {A} (body : M A) (handler : M A) : M A :=
  fun s =>
    match body s with
    | (Ok a, s') => (Ok a, s')
    | (_, s') => handler s'
    end.

(** [sys.stdout.write(text)] *)
Definition write_out (text : string) : M unit :=
  fun s => (Ok tt, World (files s) (out s ++ [text]) (err s) (calls s)).

(** [print(text)] *)
Definition print (text : string) : M unit := write_out (text +:+ nl).

(** [print(text, file=sys.stderr)] *)
Definition print_err (text : string) : M unit :=
  fun s => (Ok tt, World (files s) (out s) (err s ++ [text +:+ nl]) (calls s)).

(** [os.path.exists(path)] *)
Definition os_path_exists (path : string) : M bool :=
  fun s => (Ok (bool_decide (is_Some (files s !! path))), s).

(** [open(path, 'r').read()] *)
Definition read_file (path : string) : M string :=
  fun s =>
    match files s !! path with
    | Some c => (Ok c, s)
    | None => (Raise (Exn "FileNotFoundError" path), s)
    end.

(** [open(path, 'w').write(content)] *)
Definition write_file (path content : string) : M unit :=
  fun s => (Ok tt, World (<[path := content]> (files s)) (out s) (err s) (calls s)).

(** [os.makedirs(dir, exist_ok=True)]: the empty path is refused, every
    other directory is taken to exist or to be creatable. *)
Definition os_makedirs (dir : string) : M unit :=
  if str_truthy dir then ret tt
  else raise (Exn "FileNotFoundError" "[Errno 2] No such file or directory: ''").

Definition log_call (c : call) : M unit :=
  fun s => (Ok tt, World (files s) (out s) (err s) (calls s ++ [c])).

(** ** The Python runtime

    The parts of the standard library the wrapper calls and that are taken as
    given: [json.loads] ([None] when the text is not a JSON document, where
    Python raises [JSONDecodeError]), [json.dumps] and [repr]. *)

Class PyRuntime := {
  json_loads : string -> option json;
  json_dumps : json -> string;
  py_repr : json -> string
}.

(** ** ClaudeWrapper *)

Record wrapper := Wrapper {
  api_key : string;
  client : api;
  model : string;
  max_tokens : Z;
  conversation_history : json;
  session_file : string
}.

Definition set_history (w : wrapper) (h : json) : wrapper :=
  Wrapper (api_key w) (client w) (model w) (max_tokens w) h (session_file w).

Definition not_subscriptable (v : json) : exn :=
  Exn "TypeError" ("'" +:+ type_name v +:+ "' object is not subscriptable").

Definition unhashable_slice : exn := Exn "TypeError" "unhashable type: 'slice'".

(** [v.append(x)]: only a list has the method.  Returns the entries of the
    list after the call. *)
Definition append (v x : json) : M (list json) :=
  match v with
  | JArr l => ret (l ++ [x])
  | _ => raise (Exn "AttributeError"
                  ("'" +:+ type_name v +:+ "' object has no attribute 'append'"))
  end.

(** The items that [for msg in v[-n:]] visits. *)
Definition tail_items (n : nat) (v : json) : M (list json) :=
  match v with
  | JArr l => ret (slice_last n l)
  | JStr s => ret (map (fun c => JStr (String c EmptyString))
                       (list_ascii_of_string (str_slice_last n s)))
  | JObj _ => raise unhashable_slice
  | _ => raise (not_subscriptable v)
  end.

(** [v[key]] for a string key *)
Definition subscript (v : json) (key : string) : M json :=
  match v with
  | JObj kv =>
      match dict_get key kv with
      | Some x => ret x
      | None => raise (Exn "KeyError" ("'" +:+ key +:+ "'"))
      end
  | JArr _ => raise (Exn "TypeError" "list indices must be integers or slices, not str")
  | JStr _ => raise (Exn "TypeError" "string indices must be integers, not 'str'")
  | _ => raise (not_subscriptable v)
  end.

Section Wrapper.

Context {rt : PyRuntime}.

(** The text that [f"{v[:n]}"] inserts. *)
Definition head_text (n : nat) (v : json) : M string :=
  match v with
  | JStr s => ret (str_take n s)
  | JArr l => ret (py_repr (JArr (take n l)))
  | JObj _ => raise unhashable_slice
  | _ => raise (not_subscriptable v)
  end.

(** *** Session store *)

Definition load_session (w : wrapper) : M wrapper :=
  present <- os_path_exists (session_file w) ;;
  if present : bool then
    try_except
      (text <- read_file (session_file w) ;;
       match json_loads text with
       | Some v => ret (set_history w v)
       | None => raise (Exn "JSONDecodeError" text)
       end)
      (ret (set_history w (JArr [])))
  else ret w.

Definition save_session (w : wrapper) : M unit :=
  os_makedirs (os_path_dirname (session_file w)) >>
  write_file (session_file w) (json_dumps (conversation_history w)).

(** *** __init__ *)

(** [a or b] on the results of [os.environ.get] *)
Definition py_or (a b : option string) : option string :=
  match a with
  | Some k => if str_truthy k then a else b
  | None => b
  end.

Definition init (anthropic : string -> api) (environ : gmap string string) : M wrapper :=
  match py_or (environ !! "CLAUDE_API_KEY") (environ !! "ANTHROPIC_API_KEY") with
  | Some (String c k) =>
      let key := String c k in
      let model := default "claude-3-sonnet-20240229" (environ !! "CLAUDE_MODEL") in
      let tokens := default "4096" (environ !! "MAX_TOKENS") in
      match py_int tokens with
      | None =>
          raise (Exn "ValueError"
                   ("invalid literal for int() with base 10: " +:+ py_repr (JStr tokens)))
      | Some max_tokens =>
          let dir := default "/app/sessions" (environ !! "CLAUDE_SESSION_DIR") in
          load_session
            (Wrapper key (anthropic key) model max_tokens (JArr [])
                     (os_path_join dir "current_session.json"))
      end
  | _ =>
      print_err "Error: No API key found. Please set CLAUDE_API_KEY or ANTHROPIC_API_KEY" >>
      sys_exit 1
  end.

(** *** chat *)

(** The loop over [stream.text_stream]: each fragment is printed as it
    arrives and added to [response_text]. *)
Fixpoint consume (fragments : list string) (response_text : string) : M string :=
  match fragments with
  | [] => ret response_text
  | text :: rest => write_out text >> consume rest (response_text +:+ text)
  end.

Definition chat (w : wrapper) (message : string) (stream : bool) : M wrapper :=
  try_except_Exception
    (history <- append (conversation_history w) (message_dict "user" message) ;;
     let messages := slice_last 10 history in
     let req := Request (model w) (max_tokens w) messages in
     if stream then
       log_call (Stream req) >>
       let '(fragments, failure) := messages_stream (client w) req in
       response_text <- consume fragments EmptyString ;;
       match failure with
       | Some e => raise e
       | None =>
           let w' := set_history w (JArr (history ++ [message_dict "assistant" response_text])) in
           save_session w' >> ret w'
       end
     else
       log_call (Create req) >>
       match messages_create (client w) req with
       | inl e => raise e
       | inr content =>
           match content with
           | [] => raise (Exn "IndexError" "list index out of range")
           | TextBlock response_text :: _ =>
               print response_text >>
               let w' := set_history w (JArr (history ++ [message_dict "assistant" response_text])) in
               save_session w' >> ret w'
           | OtherBlock cls :: _ =>
               raise (Exn "AttributeError" ("'" +:+ cls +:+ "' object has no attribute 'text'"))
           end
       end)
    (fun e => print_err ("Error: " +:+ exn_str e) >> sys_exit 1).

(** *** handle_command *)

Definition help_text : string :=
  join nl
    [ EmptyString;
      "Claude CLI Wrapper - Docker Version";
      EmptyString;
      "Usage:";
      "  claude [options] [message]";
      EmptyString;
      "Options:";
      "  --stream          Enable streaming mode";
      "  --continue        Resume previous conversation";
      "  --clear           Clear conversation history";
      "  --version         Show version";
      "  --help            Show this help";
      EmptyString;
      "Examples:";
      "  claude " +:+ dq +:+ "Hello, Claude!" +:+ dq;
      "  echo " +:+ dq +:+ "What is Python?" +:+ dq +:+ " | claude";
      "  claude --stream " +:+ dq +:+ "Write a long story" +:+ dq;
      "  claude --continue";
      EmptyString;
      "Environment Variables:";
      "  CLAUDE_API_KEY    Your Anthropic API key";
      "  CLAUDE_MODEL      Model to use (default: claude-3-sonnet-20240229)";
      "  MAX_TOKENS        Maximum tokens (default: 4096)";
      EmptyString ].

Definition print_help : M unit := print help_text.

(** The body of [for msg in self.conversation_history[-2:]]. *)
Definition show_message (msg : json) : M unit :=
  r <- subscript msg "role" ;;
  let role := if eq_str r "user" then "You" else "Claude" in
  content <- subscript msg "content" ;;
  text <- head_text 100 content ;;
  print (role +:+ ": " +:+ text +:+ "...").

Fixpoint for_each {A} (body : A -> M unit) (l : list A) : M unit :=
  match l with
  | [] => ret tt
  | x :: r => body x >> for_each body r
  end.

(** The [--continue] / [--resume] branch. *)
Definition resume (w : wrapper) : M unit :=
  if py_truthy (conversation_history w) then
    print "Resuming previous conversation..." >>
    items <- tail_items 2 (conversation_history w) ;;
    for_each show_message items
  else print "No previous conversation found".

(** Where the message comes from: standard input when it is not a terminal,
    else the arguments, else the interactive prompt.  [args] has already
    lost its first [--stream]. *)
Definition read_message (stdin : stdin_t) (args : list string) : M string :=
  if negb (isatty stdin) then ret (strip (data stdin))
  else
    match args with
    | _ :: _ => ret (join " " args)
    | [] => print "Enter your message (Ctrl+D to send):" >> ret (strip (data stdin))
    end.

Definition handle_command (stdin : stdin_t) (w : wrapper) (args : list string) : M wrapper :=
  if mem "--help" args || mem "-h" args then print_help >> ret w
  else if mem "--version" args || mem "-v" args then
    print "Claude CLI Wrapper v1.0.0" >> ret w
  else if mem "--clear" args then
    let w' := set_history w (JArr []) in
    save_session w' >> print "Session cleared" >> ret w'
  else if mem "--continue" args || mem "--resume" args then
    resume w >> ret w
  else
    let stream := mem "--stream" args in
    let args := if stream then remove_first "--stream" args else args in
    message <- read_message stdin args ;;
    if str_truthy message then chat w message stream else ret w.

(** *** main *)

Definition main (anthropic : string -> api) (environ : gmap string string)
    (stdin : stdin_t) (argv : list string) : M unit :=
  wrapper <- init anthropic environ ;;
  handle_command stdin wrapper (drop 1 argv) >> ret tt.

End Wrapper.

(** The exit status of the process. *)
Definition exit_code {A} (r : result A) : Z :=
  match r with
  | Ok _ => 0
  | Raise _ => 1
  | Exit c => c
  end.

Definition empty_world : world := World ∅ [] [] [].

(** ** A runtime for concrete runs

    Enough of [json] and [repr] to run the wrapper on sample sessions:
    [dumps] writes a list of role/content messages in JSON syntax (for
    contents that need no escaping) and [loads] recognises the documents of
    a table. *)

Module Sample.

Definition quoted (s : string) : string := dq +:+ s +:+ dq.

Definition as_message (v : json) : option (string * string) :=
  match v with
  | JObj [(k1, JStr role); (k2, JStr content)] =>
      if String.eqb k1 "role" && String.eqb k2 "content"
      then Some (role, content) else None
  | _ => None
  end.

Fixpoint as_messages (l : list json) : option (list (string * string)) :=
  match l with
  | [] => Some []
  | v :: r =>
      match as_message v, as_messages r with
      | Some m, Some ms => Some (m :: ms)
      | _, _ => None
      end
  end.

Definition message_text (m : string * string) : string :=
  "{" +:+ quoted "role" +:+ ": " +:+ quoted (fst m) +:+ ", "
      +:+ quoted "content" +:+ ": " +:+ quoted (snd m) +:+ "}".

Definition dumps (v : json) : string :=
  match v with
  | JArr l =>
      match as_messages l with
      | Some ms => "[" +:+ join ", " (map message_text ms) +:+ "]"
      | None => "null"
      end
  | _ => "null"
  end.

Definition stored_message (m : string * string) : json :=
  message_dict (fst m) (snd m).

Definition log_of (ms : list (string * string)) : json :=
  JArr (map stored_message ms).

Definition hello : list (string * string) :=
  [("user", "Hello"); ("assistant", "Hi there")].

(** Ten entries: five turns. *)
Definition five_turns : list (string * string) :=
  [("user", "q1"); ("assistant", "a1"); ("user", "q2"); ("assistant", "a2");
   ("user", "q3"); ("assistant", "a3"); ("user", "q4"); ("assistant", "a4");
   ("user", "q5"); ("assistant", "a5")].

Definition documents : list (string * json) :=
  map (fun ms => (dumps (log_of ms), log_of ms)) [ []; hello; five_turns ].

Fixpoint lookup_document (text : string) (table : list (string * json)) : option json :=
  match table with
  | [] => None
  | (t, v) :: r => if String.eqb text t then Some v else lookup_document text r
  end.

Definition loads (text : string) : option json := lookup_document text documents.

Definition repr (v : json) : string :=
  match v with
  | JStr s => "'" +:+ s +:+ "'"
  | _ => "<" +:+ type_name v +:+ ">"
  end.

Definition runtime : PyRuntime :=
  {| json_loads := loads; json_dumps := dumps; py_repr := repr |}.

(** A service that answers every request with one text block, streamed in
    two fragments. *)
Definition greeter : api :=
  Api (fun _ => inr [TextBlock "Hi there"]) (fun _ => (["Hi "; "there"], None)).

(** A service whose every response has two text blocks, streamed block by
    block. *)
Definition two_blocks : api :=
  Api (fun _ => inr [TextBlock "Hi"; TextBlock " there"])
      (fun _ => (["Hi"; " there"], None)).

(** A service that rejects every request. *)
Definition refuser : api :=
  Api (fun _ => inl (Exn "AuthenticationError" "invalid x-api-key"))
      (fun _ => ([], Some (Exn "AuthenticationError" "invalid x-api-key"))).

(** A service whose stream breaks after one fragment. *)
Definition breaker : api :=
  Api (fun _ => inl (Exn "APIConnectionError" "Connection error."))
      (fun _ => (["Hi "], Some (Exn "APIConnectionError" "Connection error."))).

Definition session_path : string := "/app/sessions/current_session.json".

Definition wrapper_with (service : api) (ms : list (string * string)) : wrapper :=
  Wrapper "sk-test" service "claude-3-sonnet-20240229" 4096 (log_of ms) session_path.

Definition world_with (content : option string) : world :=
  World (match content with Some c => {[ session_path := c ]} | None => ∅ end) [] [] [].

Definition terminal (typed : string) : stdin_t := Stdin true typed.
Definition piped (text : string) : stdin_t := Stdin false text.

(** A service whose responses start with a block that carries no text. *)
Definition tool_user : api :=
  Api (fun _ => inr [OtherBlock "ToolUseBlock"]) (fun _ => ([], None)).

(** A runtime that also reads the empty dictionary. *)
Definition object_loads (text : string) : option json :=
  if String.eqb text "{}" then Some (JObj []) else loads text.

Definition object_runtime : PyRuntime :=
  {| json_loads := object_loads; json_dumps := dumps; py_repr := repr |}.

(** An environment with a credential and the given extra variables. *)
Definition environ_with (extra : list (string * string)) : gmap string string :=
  <["CLAUDE_API_KEY" := "sk-test"]> (list_to_map extra).

End Sample.

(** ** Vocabulary of the properties *)

(** The concatenation of all emitted fragments. *)
Definition concat_all (fragments : list string) : string :=
  foldr String.append EmptyString fragments.

(** The request [chat] assembles when the log holds [log]. *)
Definition request_for (w : wrapper) (log : list json) (message : string) : request :=
  Request (model w) (max_tokens w) (slice_last 10 (log ++ [message_dict "user" message])).

Definition call_for (stream : bool) (r : request) : call :=
  if stream then Stream r else Create r.

(** The log after a completed turn. *)
Definition turn_done (log : list json) (message reply : string) : list json :=
  (log ++ [message_dict "user" message]) ++ [message_dict "assistant" reply].

(** The world once the request went out and [printed] was written. *)
Definition after_call (c : call) (printed : list string) (s : world) : world :=
  World (files s) (out s ++ printed) (err s) (calls s ++ [c]).

(** The [except Exception] branch of [chat]. *)
Definition reported (e : exn) (s : world) : result wrapper * world :=
  (Exit 1, World (files s) (out s) (err s ++ [("Error: " +:+ exn_str e) +:+ nl]) (calls s)).

Definition no_such_directory : exn :=
  Exn "FileNotFoundError" "[Errno 2] No such file or directory: ''".

(** Appending the reply and saving, inside the [try]. *)
Definition finish {rt : PyRuntime} (w : wrapper) (log : list json) (s : world)
    : result wrapper * world :=
  let w' := set_history w (JArr log) in
  if str_truthy (os_path_dirname (session_file w))
  then (Ok w', World (<[session_file w := json_dumps (JArr log)]> (files s))
                     (out s) (err s) (calls s))
  else reported no_such_directory s.

(** The remote collaborator raises [e] on [req], after [printed] reached the
    output (nothing in the non-streaming mode). *)
Definition remote_raises (w : wrapper) (req : request) (stream : bool)
    (printed : list string) (e : exn) : Prop :=
  if stream then messages_stream (client w) req = (printed, Some e)
  else messages_create (client w) req = inl e /\ printed = [].

(** The remote collaborator answers [req] with the text [reply], and
    [printed] is what the exchange writes to the output. *)
Definition remote_replies (w : wrapper) (req : request) (stream : bool)
    (printed : list string) (reply : string) : Prop :=
  if stream then
    messages_stream (client w) req = (printed, None) /\ reply = concat_all printed
  else
    (exists rest, messages_create (client w) req = inr (TextBlock reply :: rest))
    /\ printed = [reply +:+ nl].

(** The session file holds nothing that [json.load] accepts. *)
Definition absent_or_malformed {rt : PyRuntime} (s : world) (path : string) : Prop :=
  files s !! path = None \/
  exists text, files s !! path = Some text /\ json_loads text = None.

(** [os.environ.get] found nothing that counts as a credential. *)
Definition unset_or_empty (value : option string) : Prop :=
  value = None \/ value = Some EmptyString.

(** The arguments once [--stream] has been taken out. *)
Definition positional (args : list string) : list string :=
  if mem "--stream" args then remove_first "--stream" args else args.

(** One of the flags that [handle_command] serves before it looks for a
    message. *)
Definition mode_flag (args : list string) : bool :=
  mem "--help" args || mem "-h" args || mem "--version" args || mem "-v" args
  || mem "--clear" args || mem "--continue" args || mem "--resume" args.

(** A flag that is served before [--continue] and [--resume]. *)
Definition earlier_flag (args : list string) : bool :=
  mem "--help" args || mem "-h" args || mem "--version" args || mem "-v" args
  || mem "--clear" args.

(** The line [--continue] prints for a stored message. *)
Definition shown (m : string * string) : string :=
  ((if String.eqb (fst m) "user" then "You" else "Claude")
     +:+ ": " +:+ str_take 100 (snd m) +:+ "...") +:+ nl.

Definition stored (m : string * string) : json := message_dict (fst m) (snd m).

(** What [--continue] writes for a log of role/content messages. *)
Definition resume_report (ms : list (string * string)) : list string :=
  match ms with
  | [] => ["No previous conversation found" +:+ nl]
  | _ => ("Resuming previous conversation..." +:+ nl) :: map shown (slice_last 2 ms)
  end.

(** ** Vocabulary of the further properties *)

(** From [s] to [s'] nothing happened but printing to standard output. *)
Definition only_printed (s s' : world) : Prop :=
  files s' = files s /\ calls s' = calls s /\ err s' = err s.

(** A computation that prints to standard output at most: it writes no
    file, issues no request, leaves the error stream alone and does not call
    [sys.exit]. *)
Definition only_prints {A} (m : M A) : Prop :=
  forall s, only_printed s (snd (m s)) /\ forall c, fst (m s) <> Exit c.

(** The arguments hold a flag whose branch shows something and returns:
    [--help], [-h], [--version], [-v], or [--continue] / [--resume] without
    [--clear]. *)
Definition shows_only (args : list string) : bool :=
  mem "--help" args || mem "-h" args || mem "--version" args || mem "-v" args
  || (negb (mem "--clear" args) && (mem "--continue" args || mem "--resume" args)).

(** Every character is whitespace. *)
Fixpoint all_space (s : string) : bool :=
  match s with
  | EmptyString => true
  | String c r => is_space c && all_space r
  end.

Definition starts_with_space (s : string) : bool :=
  match s with String c _ => is_space c | EmptyString => false end.

Fixpoint ends_with_space (s : string) : bool :=
  match s with
  | EmptyString => false
  | String c EmptyString => is_space c
  | String _ r => ends_with_space r
  end.

Fixpoint has_slash (s : string) : bool :=
  match s with
  | EmptyString => false
  | String c r => Ascii.eqb c slash || has_slash r
  end.

(** The path [__init__] computes for the session file. *)
Definition session_path (environ : gmap string string) : string :=
  os_path_join (default "/app/sessions" (environ !! "CLAUDE_SESSION_DIR"))
               "current_session.json".

(** The wrapper [__init__] has built when it calls [load_session]. *)
Definition fresh_wrapper (anthropic : string -> api) (environ : gmap string string)
    (key : string) (tokens : Z) : wrapper :=
  Wrapper key (anthropic key)
          (default "claude-3-sonnet-20240229" (environ !! "CLAUDE_MODEL"))
          tokens (JArr []) (session_path environ).

(** [--help], [-h], [--version] or [-v] is among the arguments. *)
Definition help_or_version (args : list string) : bool :=
  mem "--help" args || mem "-h" args || mem "--version" args || mem "-v" args.

(** The key that [msg['role']] or [msg['content']] fails on, for a stored
    dictionary that lacks one of them. *)
Definition missing_key (kv : list (string * json)) : option string :=
  match dict_get "role" kv, dict_get "content" kv with
  | None, _ => Some "role"
  | Some _, None => Some "content"
  | Some _, Some _ => None
  end.

(** ** Properties *)

Section Properties.

Context {rt : PyRuntime}.

(** *** Strings and slices *)

Lemma append_cons c (a b : string) : String c a +:+ b = String c (a +:+ b).
Proof. reflexivity. Qed.

Lemma append_assoc (a b c : string) : (a +:+ b) +:+ c = a +:+ (b +:+ c).
Proof.
  induction a as [|x a IH]; [reflexivity|].
  rewrite !append_cons. by rewrite IH.
Qed.

Lemma append_empty_r (a : string) : a +:+ EmptyString = a.
Proof. induction a as [|x a IH]; [reflexivity|]. rewrite append_cons. by rewrite IH. Qed.

Lemma slice_last_length {A} n (l : list A) :
  length (slice_last n l) = Nat.min n (length l).
Proof. unfold slice_last. rewrite length_drop. lia. Qed.

Lemma slice_last_bound {A} n (l : list A) : length (slice_last n l) <= n.
Proof. rewrite slice_last_length. lia. Qed.

Lemma slice_last_suffix {A} n (l : list A) :
  l = take (length l - n) l ++ slice_last n l.
Proof. unfold slice_last. by rewrite take_drop. Qed.

Lemma slice_last_snoc {A} n (l : list A) x :
  0 < n -> last (slice_last n (l ++ [x])) = Some x.
Proof.
  intros Hn. unfold slice_last. rewrite length_app. simpl.
  rewrite drop_app_le by lia. apply last_snoc.
Qed.

Lemma slice_last_short {A} n (l : list A) : length l <= n -> slice_last n l = l.
Proof. intros H. unfold slice_last. replace (length l - n) with 0 by lia. apply drop_0. Qed.

(** *** The streaming loop *)

Lemma consume_eq fragments : forall acc s,
  consume fragments acc s =
  (Ok (acc +:+ concat_all fragments),
   World (files s) (out s ++ fragments) (err s) (calls s)).
Proof.
  induction fragments as [|f r IH]; intros acc s.
  - simpl. unfold ret. rewrite append_empty_r, app_nil_r. by destruct s.
  - simpl. unfold bind, write_out. rewrite IH. simpl.
    rewrite append_assoc, <- app_assoc. reflexivity.
Qed.

(** *** save_session *)

Lemma save_session_eq w s :
  save_session w s =
  if str_truthy (os_path_dirname (session_file w))
  then (Ok tt, World (<[session_file w := json_dumps (conversation_history w)]> (files s))
                     (out s) (err s) (calls s))
  else (Raise no_such_directory, s).
Proof.
  unfold save_session, bind, os_makedirs.
  destruct (str_truthy _); reflexivity.
Qed.

(** *** chat, case by case *)

Lemma chat_not_a_list w message stream s :
  (forall log, conversation_history w <> JArr log) ->
  chat w message stream s =
  reported (Exn "AttributeError"
              ("'" +:+ type_name (conversation_history w)
                   +:+ "' object has no attribute 'append'")) s.
Proof.
  intros H. unfold chat, try_except_Exception, bind, append.
  destruct (conversation_history w); try reflexivity.
  by destruct (H l).
Qed.

Lemma chat_stream_eq w message s log fragments failure :
  conversation_history w = JArr log ->
  messages_stream (client w) (request_for w log message) = (fragments, failure) ->
  chat w message true s =
  let s1 := after_call (Stream (request_for w log message)) fragments s in
  match failure with
  | Some e => reported e s1
  | None => finish w (turn_done log message (concat_all fragments)) s1
  end.
Proof.
  intros Hh Hs. unfold chat, try_except_Exception, bind, append, log_call, ret.
  rewrite Hh. fold (request_for w log message). rewrite Hs.
  rewrite consume_eq. simpl.
  destruct failure as [e|]; [reflexivity|].
  rewrite save_session_eq. unfold finish. simpl.
  destruct (str_truthy _); reflexivity.
Qed.

Lemma chat_create_eq w message s log :
  conversation_history w = JArr log ->
  chat w message false s =
  let s1 := after_call (Create (request_for w log message)) [] s in
  match messages_create (client w) (request_for w log message) with
  | inl e => reported e s1
  | inr [] => reported (Exn "IndexError" "list index out of range") s1
  | inr (TextBlock reply :: _) =>
      finish w (turn_done log message reply) (after_call (Create (request_for w log message)) [reply +:+ nl] s)
  | inr (OtherBlock cls :: _) =>
      reported (Exn "AttributeError" ("'" +:+ cls +:+ "' object has no attribute 'text'")) s1
  end.
Proof.
  intros Hh. unfold chat, try_except_Exception, bind, append, log_call, ret.
  rewrite Hh. fold (request_for w log message). simpl.
  unfold after_call, reported. simpl. rewrite app_nil_r.
  destruct (messages_create _ _) as [e|[|[reply|cls] rest]]; try reflexivity.
  unfold print, write_out. rewrite save_session_eq. unfold finish. simpl.
  destruct (str_truthy _); reflexivity.
Qed.


Lemma reported_calls e s : calls (snd (reported e s)) = calls s.
Proof. reflexivity. Qed.

Lemma reported_files e s : files (snd (reported e s)) = files s.
Proof. reflexivity. Qed.

Lemma finish_calls w log s : calls (snd (finish w log s)) = calls s.
Proof. unfold finish. by destruct (str_truthy _). Qed.

Lemma chat_calls w message stream s log :
  conversation_history w = JArr log ->
  calls (snd (chat w message stream s)) =
  calls s ++ [call_for stream (request_for w log message)].
Proof.
  intros Hh. destruct stream.
  - destruct (messages_stream (client w) (request_for w log message))
      as [fragments failure] eqn:Hs.
    rewrite (chat_stream_eq _ _ _ _ _ _ Hh Hs). simpl.
    destruct failure; [apply reported_calls | apply finish_calls].
  - rewrite (chat_create_eq _ _ _ _ Hh). simpl.
    destruct (messages_create _ _) as [e|[|[reply|cls] rest]];
      try apply reported_calls.
    apply finish_calls.
Qed.

(** C1.  Whatever the log holds and whatever the new user message is, the
    message list that [chat] sends to the remote collaborator is the last
    ten entries of the log after the user message was appended, in order:
    it is a suffix of that log, it has [min 10 (length log + 1)] entries, so
    at most ten, and its last entry is the user message just appended. *)
Theorem chat_sends_last_ten (w : wrapper) (message : string) (stream : bool)
    (s : world) (log : list json) :
  conversation_history w = JArr log ->
  let log' := log ++ [message_dict "user" message] in
  exists req,
    calls (snd (chat w message stream s)) = calls s ++ [call_for stream req] /\
    req_messages req = drop (length log' - 10) log' /\
    log' = take (length log' - 10) log' ++ req_messages req /\
    length (req_messages req) = Nat.min 10 (length log') /\
    length (req_messages req) <= 10 /\
    last (req_messages req) = Some (message_dict "user" message).
Proof.
  intros Hh log'. exists (request_for w log message).
  split; [by apply chat_calls|]. unfold request_for. cbn [req_messages]. fold log'.
  split; [reflexivity|].
  split; [apply slice_last_suffix|].
  split; [apply slice_last_length|].
  split; [apply slice_last_bound|].
  apply slice_last_snoc. lia.
Qed.

(** *** load_session *)

Lemma load_session_absent w s :
  files s !! session_file w = None -> load_session w s = (Ok w, s).
Proof.
  intros H. unfold load_session, bind, os_path_exists. rewrite H.
  rewrite bool_decide_eq_false_2; [reflexivity|]. by intros [x Hx].
Qed.

Lemma load_session_present w s text :
  files s !! session_file w = Some text ->
  load_session w s =
  (Ok (set_history w (default (JArr []) (json_loads text))), s).
Proof.
  intros H. unfold load_session, bind, os_path_exists. rewrite H.
  rewrite bool_decide_eq_true_2 by eauto.
  unfold try_except, bind, read_file. rewrite H.
  destruct (json_loads text); reflexivity.
Qed.

Lemma load_session_keeps_path w s w' s' :
  load_session w s = (Ok w', s') -> session_file w' = session_file w /\ s' = s.
Proof.
  destruct (files s !! session_file w) as [text|] eqn:H.
  - rewrite (load_session_present _ _ _ H). intros [= <- <-]. by split.
  - rewrite (load_session_absent _ _ H). intros [= <- <-]. by split.
Qed.

(** C2.  [load_session] never raises and writes nothing, whatever is on
    disk.  When the session file holds text that [json.load] rejects, the
    log becomes the empty list and the text is dropped without a word.  When
    the file is absent the log is left as it is, which is the empty list that
    [__init__] has assigned just before its call: the wrapper that
    [__init__] returns has an empty log whenever its session file is absent
    or malformed. *)
Theorem load_session_absent_or_malformed (w : wrapper) (s : world) :
  (exists w', load_session w s = (Ok w', s)) /\
  (forall text,
     files s !! session_file w = Some text -> json_loads text = None ->
     load_session w s = (Ok (set_history w (JArr [])), s)) /\
  (files s !! session_file w = None -> load_session w s = (Ok w, s)) /\
  (forall anthropic environ w0 s0,
     init anthropic environ s = (Ok w0, s0) ->
     absent_or_malformed s (session_file w0) ->
     conversation_history w0 = JArr [] /\ s0 = s).
Proof.
  split; [|split; [|split]].
  - destruct (files s !! session_file w) as [text|] eqn:H.
    + rewrite (load_session_present _ _ _ H). eauto.
    + rewrite (load_session_absent _ _ H). eauto.
  - intros text H Hbad. rewrite (load_session_present _ _ _ H). by rewrite Hbad.
  - apply load_session_absent.
  - intros anthropic environ w0 s0. unfold init.
    destruct (py_or _ _) as [[|c k]|]; try discriminate.
    destruct (py_int _) as [n|]; try discriminate.
    set (fresh := Wrapper _ _ _ _ _ _). intros Hload Hdisk.
    destruct (load_session_keeps_path _ _ _ _ Hload) as [Hpath ->].
    split; [|reflexivity]. rewrite Hpath in Hdisk.
    destruct Hdisk as [Habs|(text & Htext & Hbad)].
    + rewrite (load_session_absent _ _ Habs) in Hload. by injection Hload as <-.
    + rewrite (load_session_present _ _ _ Htext), Hbad in Hload.
      by injection Hload as <-.
Qed.

(** *** chat: all or nothing *)

Lemma finish_cases w log s :
  (fst (finish w log s) = Ok (set_history w (JArr log)) /\
   files (snd (finish w log s)) = <[session_file w := json_dumps (JArr log)]> (files s)) \/
  (fst (finish w log s) = Exit 1 /\ files (snd (finish w log s)) = files s).
Proof. unfold finish. destruct (str_truthy _); [left|right]; by split. Qed.

(** C3.  When the remote collaborator raises, [chat] catches the exception,
    writes [Error: ] followed by its message text to the error stream and
    exits with code 1; the files are exactly as before, so the user message
    appended in memory is not saved.  In streaming mode the fragments that
    arrived before the failure have been printed.  More generally every call
    of [chat] either returns with the user and the assistant message appended
    to the log and that log written to the session file, or exits with code 1
    with the files unchanged. *)
Theorem chat_all_or_nothing (w : wrapper) (message : string) (stream : bool) (s : world) :
  (forall log printed e,
     conversation_history w = JArr log ->
     remote_raises w (request_for w log message) stream printed e ->
     chat w message stream s =
     (Exit 1,
      World (files s) (out s ++ printed)
            (err s ++ [("Error: " +:+ exn_str e) +:+ nl])
            (calls s ++ [call_for stream (request_for w log message)]))) /\
  ((exists log reply w',
      conversation_history w = JArr log /\
      fst (chat w message stream s) = Ok w' /\
      conversation_history w' = JArr (turn_done log message reply) /\
      files (snd (chat w message stream s)) =
        <[session_file w := json_dumps (JArr (turn_done log message reply))]> (files s)) \/
   (fst (chat w message stream s) = Exit 1 /\
    files (snd (chat w message stream s)) = files s)).
Proof.
  split.
  - intros log printed e Hh Hr. destruct stream; simpl in Hr.
    + by rewrite (chat_stream_eq _ _ _ _ _ _ Hh Hr).
    + destruct Hr as [Hr ->]. rewrite (chat_create_eq _ _ _ _ Hh), Hr.
      reflexivity.
  - destruct (conversation_history w) as [| | | | |log|] eqn:Hh;
      try (right; rewrite chat_not_a_list by (rewrite Hh; discriminate); by split).
    destruct stream.
    + destruct (messages_stream (client w) (request_for w log message))
        as [fragments failure] eqn:Hs.
      rewrite (chat_stream_eq _ _ _ _ _ _ Hh Hs). cbn zeta.
      destruct failure as [e|]; [right; by split|].
      destruct (finish_cases w (turn_done log message (concat_all fragments))
                  (after_call (Stream (request_for w log message)) fragments s))
        as [[H1 H2]|[H1 H2]]; [left|right; by split].
      exists log, (concat_all fragments), (set_history w (JArr (turn_done log message (concat_all fragments)))).
      by repeat split.
    + rewrite (chat_create_eq _ _ _ _ Hh). cbn zeta.
      destruct (messages_create _ _) as [e|[|[reply|cls] rest]];
        try (right; by split).
      destruct (finish_cases w (turn_done log message reply)
                  (after_call (Create (request_for w log message)) [reply +:+ nl] s))
        as [[H1 H2]|[H1 H2]]; [left|right; by split].
      exists log, reply, (set_history w (JArr (turn_done log message reply))).
      by repeat split.
Qed.

(** C7.  A successful [chat] call on a log of ten entries leaves a log of
    twelve entries in the session file: the old ten, the user message and the
    assistant message.  Nothing of the stored history is cut, for a log of any
    length; only the list sent to the remote collaborator is limited to ten
    entries. *)
Theorem chat_keeps_whole_history (w : wrapper) (message : string) (stream : bool)
    (s : world) (log : list json) (printed : list string) (reply : string) :
  conversation_history w = JArr log ->
  str_truthy (os_path_dirname (session_file w)) = true ->
  remote_replies w (request_for w log message) stream printed reply ->
  let log' := log ++ [message_dict "user" message; message_dict "assistant" reply] in
  chat w message stream s =
    (Ok (set_history w (JArr log')),
     World (<[session_file w := json_dumps (JArr log')]> (files s))
           (out s ++ printed) (err s)
           (calls s ++ [call_for stream (request_for w log message)])) /\
  take (length log) log' = log /\
  length log' = length log + 2 /\
  (length log = 10 ->
   length log' = 12 /\ length (req_messages (request_for w log message)) = 10).
Proof.
  intros Hh Hdir Hr log'.
  assert (Hlog : turn_done log message reply = log') by (unfold turn_done, log'; by rewrite <- app_assoc).
  split; [|split; [|split]].
  - destruct stream; simpl in Hr.
    + destruct Hr as [Hr ->].
      rewrite (chat_stream_eq _ _ _ _ _ _ Hh Hr). cbn zeta.
      unfold finish. rewrite Hdir, Hlog. reflexivity.
    + destruct Hr as [[rest Hr] ->].
      rewrite (chat_create_eq _ _ _ _ Hh), Hr. cbn zeta.
      unfold finish. rewrite Hdir, Hlog. reflexivity.
  - unfold log'. by rewrite take_app_length.
  - unfold log'. rewrite length_app. simpl. lia.
  - intros H10. split.
    + unfold log'. rewrite length_app. simpl. lia.
    + unfold request_for. cbn [req_messages]. rewrite slice_last_length, length_app.
      rewrite H10. reflexivity.
Qed.

(** *** Loading after saving *)

Lemma set_history_same w : set_history w (conversation_history w) = w.
Proof. by destruct w. Qed.

Lemma load_session_result w s :
  exists h,
    load_session w s = (Ok (set_history w h), s) /\
    (h = conversation_history w \/ h = JArr [] \/ exists text, json_loads text = Some h) /\
    (absent_or_malformed s (session_file w) ->
     h = conversation_history w \/ h = JArr []).
Proof.
  destruct (files s !! session_file w) as [text|] eqn:H.
  - rewrite (load_session_present _ _ _ H).
    destruct (json_loads text) as [v|] eqn:Hv.
    + exists v. split; [reflexivity|]. split; [eauto|].
      intros [Habs|(text' & Htext & Hbad)]; congruence.
    + exists (JArr []). split; [reflexivity|]. split; auto.
  - rewrite (load_session_absent _ _ H). exists (conversation_history w).
    rewrite set_history_same. split; [reflexivity|]. split; auto.
Qed.

(** C4.  Provided [json.loads] reads back what [json.dumps] wrote, for the
    values it produces itself and for the empty list: loading the session and
    saving the unchanged result changes nothing for later loads.  For a
    wrapper as [__init__] builds it (empty log), a second [load_session]
    returns the very wrapper the first one returned, whatever the session
    file held.  When the save went through, the file holds the dump of the
    loaded log and every later load, from any wrapper on that file, yields
    that log; when the file was absent or malformed that log is the empty
    list, so a malformed document has been replaced by the dump of the empty
    list.  The save fails only for an empty directory name, and then nothing
    was written. *)
Theorem load_save_round_trip (w : wrapper) (s : world) :
  (forall text v, json_loads text = Some v -> json_loads (json_dumps v) = Some v) ->
  json_loads (json_dumps (JArr [])) = Some (JArr []) ->
  conversation_history w = JArr [] ->
  exists w1 r s2,
    load_session w s = (Ok w1, s) /\
    save_session w1 s = (r, s2) /\
    load_session w s2 = (Ok w1, s2) /\
    (r = Ok tt \/ (r = Raise no_such_directory /\ s2 = s)) /\
    (r = Ok tt ->
     files s2 = <[session_file w := json_dumps (conversation_history w1)]> (files s) /\
     forall w0, session_file w0 = session_file w ->
       load_session w0 s2 = (Ok (set_history w0 (conversation_history w1)), s2)) /\
    (absent_or_malformed s (session_file w) -> conversation_history w1 = JArr []).
Proof.
  intros Hrt Hempty Hfresh.
  destruct (load_session_result w s) as (h & Hload & Horigin & Hbad).
  assert (Hback : json_loads (json_dumps h) = Some h).
  { destruct Horigin as [->|[->|[text Htext]]]; [by rewrite Hfresh|done|eauto]. }
  exists (set_history w h). rewrite save_session_eq. cbn [session_file conversation_history set_history].
  destruct (str_truthy (os_path_dirname (session_file w))) eqn:Hdir.
  - eexists _, _. split; [exact Hload|]. split; [reflexivity|].
    assert (Hreload : forall w0, session_file w0 = session_file w ->
              load_session w0
                (World (<[session_file w := json_dumps h]> (files s)) (out s) (err s) (calls s)) =
              (Ok (set_history w0 h),
               World (<[session_file w := json_dumps h]> (files s)) (out s) (err s) (calls s))).
    { intros w0 Hpath.
      erewrite load_session_present; [by rewrite Hback|].
      cbn [files]. rewrite Hpath. apply lookup_insert_eq. }
    split; [by apply Hreload|]. split; [by left|]. split.
    + intros _. split; [reflexivity|]. exact Hreload.
    + intros Hd. destruct (Hbad Hd) as [->| ->]; [exact Hfresh|reflexivity].
  - eexists _, _. split; [exact Hload|]. split; [reflexivity|].
    split; [exact Hload|]. split; [right; by split|]. split; [discriminate|].
    intros Hd. destruct (Hbad Hd) as [->| ->]; [exact Hfresh|reflexivity].
Qed.

(** *** __init__ without a credential *)

(** C6.  When neither [CLAUDE_API_KEY] nor [ANTHROPIC_API_KEY] is set to a
    non-empty value, the program writes the error line to the error stream and
    exits with code 1: no request has been issued and no file has been
    written, so a session file that did not exist still does not. *)
Theorem missing_credential_exits (anthropic : string -> api)
    (environ : gmap string string) (stdin : stdin_t) (argv : list string) (s : world) :
  unset_or_empty (environ !! "CLAUDE_API_KEY") ->
  unset_or_empty (environ !! "ANTHROPIC_API_KEY") ->
  main anthropic environ stdin argv s =
  (Exit 1,
   World (files s) (out s)
         (err s ++ ["Error: No API key found. Please set CLAUDE_API_KEY or ANTHROPIC_API_KEY" +:+ nl])
         (calls s)).
Proof.
  intros [H1|H1] [H2|H2]; unfold main, bind, init; rewrite H1, H2; reflexivity.
Qed.

(** *** The two modes of chat *)

(** What the log holds when a call returned. *)
Lemma finish_result w log s :
  fst (finish w log s) =
  if str_truthy (os_path_dirname (session_file w))
  then Ok (set_history w (JArr log)) else Exit 1.
Proof. unfold finish. by destruct (str_truthy _). Qed.

Lemma finish_files w log s :
  files (snd (finish w log s)) =
  if str_truthy (os_path_dirname (session_file w))
  then <[session_file w := json_dumps (JArr log)]> (files s) else files s.
Proof. unfold finish. by destruct (str_truthy _). Qed.

(** C8 (amended).  For a response whose first content block is a text block
    and whose streamed fragments concatenate to the text of that block, the
    streaming and the non-streaming call end alike: the same result, the same
    assistant text appended to the log, the same files. *)
Theorem stream_and_create_agree (w : wrapper) (message : string) (s : world)
    (log : list json) (reply : string) (rest : list block) (fragments : list string) :
  conversation_history w = JArr log ->
  messages_create (client w) (request_for w log message) = inr (TextBlock reply :: rest) ->
  messages_stream (client w) (request_for w log message) = (fragments, None) ->
  concat_all fragments = reply ->
  fst (chat w message true s) = fst (chat w message false s) /\
  files (snd (chat w message true s)) = files (snd (chat w message false s)) /\
  (str_truthy (os_path_dirname (session_file w)) = true ->
   fst (chat w message true s) = Ok (set_history w (JArr (turn_done log message reply)))).
Proof.
  intros Hh Hc Hs Hcat.
  rewrite (chat_stream_eq _ _ _ _ _ _ Hh Hs), (chat_create_eq _ _ _ _ Hh), Hc, Hcat.
  cbn zeta. rewrite !finish_result, !finish_files. split; [reflexivity|].
  split; [reflexivity|]. by intros ->.
Qed.

(** *** handle_command *)

Lemma mode_flag_false args :
  mode_flag args = false ->
  (mem "--help" args || mem "-h" args = false) /\
  (mem "--version" args || mem "-v" args = false) /\
  mem "--clear" args = false /\
  (mem "--continue" args || mem "--resume" args = false).
Proof.
  unfold mode_flag. intros H.
  repeat (apply orb_false_elim in H; destruct H as [H ?]).
  repeat split; by repeat (apply orb_false_intro).
Qed.

Lemma earlier_flag_false args :
  earlier_flag args = false ->
  (mem "--help" args || mem "-h" args = false) /\
  (mem "--version" args || mem "-v" args = false) /\
  mem "--clear" args = false.
Proof.
  unfold earlier_flag. intros H.
  repeat (apply orb_false_elim in H; destruct H as [H ?]).
  repeat split; by repeat (apply orb_false_intro).
Qed.

(** Without a mode flag, [handle_command] reads a message and hands it to
    [chat] unless it is empty. *)
Lemma handle_command_message stdin w args s :
  mode_flag args = false ->
  handle_command stdin w args s =
  match read_message stdin (positional args) s with
  | (Ok message, s1) =>
      if str_truthy message then chat w message (mem "--stream" args) s1 else (Ok w, s1)
  | (Raise e, s1) => (Raise e, s1)
  | (Exit c, s1) => (Exit c, s1)
  end.
Proof.
  intros H. destruct (mode_flag_false _ H) as (H1 & H2 & H3 & H4).
  unfold handle_command. rewrite H1, H2, H3, H4. unfold bind, positional.
  destruct (read_message _ _ _) as [[message| |] s1]; try reflexivity.
  by destruct (str_truthy message).
Qed.

Lemma read_message_piped stdin args s :
  isatty stdin = false -> read_message stdin args s = (Ok (strip (data stdin)), s).
Proof. intros H. unfold read_message. by rewrite H. Qed.

Lemma read_message_args stdin args s :
  isatty stdin = true -> args <> [] -> read_message stdin args s = (Ok (join " " args), s).
Proof. intros H Ha. unfold read_message. rewrite H. by destruct args. Qed.

Lemma read_message_total stdin args s :
  exists message s1,
    read_message stdin args s = (Ok message, s1) /\
    files s1 = files s /\ calls s1 = calls s /\ err s1 = err s.
Proof.
  unfold read_message. destruct (isatty stdin); [destruct args|]; by eexists _, _.
Qed.

(** C5 (amended).  Without a mode flag: when standard input is piped, the
    message is the whole piped input with surrounding whitespace trimmed,
    whether or not arguments are present; when standard input is a terminal
    and an argument remains once the first [--stream] is taken out, the
    message is the remaining arguments joined with single spaces.  The message
    goes to [chat] when it is not empty. *)
Theorem message_source (stdin : stdin_t) (w : wrapper) (args : list string) (s : world) :
  mode_flag args = false ->
  (isatty stdin = false ->
   handle_command stdin w args s =
   if str_truthy (strip (data stdin))
   then chat w (strip (data stdin)) (mem "--stream" args) s else (Ok w, s)) /\
  (isatty stdin = true -> positional args <> [] ->
   handle_command stdin w args s =
   if str_truthy (join " " (positional args))
   then chat w (join " " (positional args)) (mem "--stream" args) s else (Ok w, s)).
Proof.
  intros H. split.
  - intros Hp. by rewrite (handle_command_message _ _ _ _ H), (read_message_piped _ _ _ Hp).
  - intros Ht Ha.
    by rewrite (handle_command_message _ _ _ _ H), (read_message_args _ _ _ Ht Ha).
Qed.

(** C10.  Without a mode flag a message is always found, and when it is the
    empty string [handle_command] returns normally: no request was issued,
    the files and the error stream are as before (only the interactive prompt
    may have been printed). *)
Theorem empty_message_sends_nothing (stdin : stdin_t) (w : wrapper)
    (args : list string) (s : world) :
  mode_flag args = false ->
  (exists message s1, read_message stdin (positional args) s = (Ok message, s1)) /\
  (forall s1,
     read_message stdin (positional args) s = (Ok EmptyString, s1) ->
     handle_command stdin w args s = (Ok w, s1) /\
     files s1 = files s /\ calls s1 = calls s /\ err s1 = err s).
Proof.
  intros H. split.
  - destruct (read_message_total stdin (positional args) s) as (m & s1 & Hr & _). eauto.
  - intros s1 Hr. rewrite (handle_command_message _ _ _ _ H), Hr. split; [reflexivity|].
    destruct (read_message_total stdin (positional args) s) as (m & s1' & Hr' & Hf).
    rewrite Hr in Hr'. by injection Hr' as _ <-.
Qed.

(** *** --continue / --resume *)

Lemma show_message_stored m s :
  show_message (stored m) s =
  (Ok tt, World (files s) (out s ++ [shown m]) (err s) (calls s)).
Proof. destruct m as [role content]. reflexivity. Qed.

Lemma for_each_stored ms : forall s,
  for_each show_message (map stored ms) s =
  (Ok tt, World (files s) (out s ++ map shown ms) (err s) (calls s)).
Proof.
  induction ms as [|m ms IH]; intros s.
  - simpl. unfold ret. rewrite app_nil_r. by destruct s.
  - simpl. unfold bind. rewrite show_message_stored, IH. simpl.
    by rewrite <- app_assoc.
Qed.

Lemma slice_last_map {A B} (f : A -> B) n l :
  slice_last n (map f l) = map f (slice_last n l).
Proof. unfold slice_last. by rewrite length_map, skipn_map. Qed.

Lemma resume_stored w ms s :
  conversation_history w = JArr (map stored ms) ->
  resume w s = (Ok tt, World (files s) (out s ++ resume_report ms) (err s) (calls s)).
Proof.
  intros Hh. unfold resume. rewrite Hh. destruct ms as [|m ms]; [reflexivity|].
  cbn [py_truthy map]. unfold bind, print, write_out, tail_items, ret.
  change (stored m :: map stored ms) with (map stored (m :: ms)).
  rewrite slice_last_map, for_each_stored. simpl.
  by rewrite <- app_assoc.
Qed.

(** C9 (amended).  When the arguments hold [--continue] or [--resume] and
    none of [--help], [-h], [--version], [-v], [--clear], and the stored log
    is a list of role/content messages: [handle_command] returns normally
    (exit status 0) with no request issued and no file written; it has
    printed the announcement and the last two messages at most, each as [You]
    or [Claude], a colon, the first 100 characters of the content and three
    dots; for an empty log it has printed that no previous conversation was
    found. *)
Theorem resume_prints_last_two (stdin : stdin_t) (w : wrapper) (args : list string)
    (s : world) (ms : list (string * string)) :
  earlier_flag args = false ->
  mem "--continue" args || mem "--resume" args = true ->
  conversation_history w = JArr (map stored ms) ->
  handle_command stdin w args s =
    (Ok w, World (files s) (out s ++ resume_report ms) (err s) (calls s)) /\
  exit_code (fst (handle_command stdin w args s)) = 0%Z /\
  length (resume_report ms) <= 3 /\
  (ms = [] -> resume_report ms = ["No previous conversation found" +:+ nl]).
Proof.
  intros He Hc Hh. destruct (earlier_flag_false _ He) as (H1 & H2 & H3).
  assert (Hrun : handle_command stdin w args s =
                 (Ok w, World (files s) (out s ++ resume_report ms) (err s) (calls s))).
  { unfold handle_command. rewrite H1, H2, H3, Hc. unfold bind.
    by rewrite (resume_stored _ _ _ Hh). }
  split; [exact Hrun|]. split; [by rewrite Hrun|]. split.
  - destruct ms as [|m ms]; [simpl; lia|].
    cbn [resume_report length]. rewrite length_map.
    pose proof (slice_last_bound 2 (m :: ms)). lia.
  - by intros ->.
Qed.

(** *** What the branches of handle_command touch *)

Lemma only_prints_ret {A} (a : A) : only_prints (ret a).
Proof. intros s. by repeat split. Qed.

Lemma only_prints_raise {A} (e : exn) : only_prints (raise (A := A) e).
Proof. intros s. by repeat split. Qed.

Lemma only_prints_write_out text : only_prints (write_out text).
Proof. intros s. by repeat split. Qed.

Lemma only_prints_bind {A B} (m : M A) (k : A -> M B) :
  only_prints m -> (forall a, only_prints (k a)) -> only_prints (bind m k).
Proof.
  intros Hm Hk s. unfold bind. destruct (Hm s) as [(Hf & Hc & He) Hx].
  destruct (m s) as [[a|e|c] s1]; simpl in *.
  - destruct (Hk a s1) as [(Hf' & Hc' & He') Hx']. repeat split; congruence.
  - by repeat split.
  - by destruct (Hx c).
Qed.

Lemma only_prints_subscript v key : only_prints (subscript v key).
Proof.
  destruct v; simpl; try apply only_prints_raise.
  destruct (dict_get key kv); [apply only_prints_ret | apply only_prints_raise].
Qed.

Lemma only_prints_head_text n v : only_prints (head_text n v).
Proof. destruct v; simpl; first [apply only_prints_ret | apply only_prints_raise]. Qed.

Lemma only_prints_tail_items n v : only_prints (tail_items n v).
Proof. destruct v; simpl; first [apply only_prints_ret | apply only_prints_raise]. Qed.

Lemma only_prints_show_message msg : only_prints (show_message msg).
Proof.
  unfold show_message.
  apply only_prints_bind; [apply only_prints_subscript|]. intros r.
  apply only_prints_bind; [apply only_prints_subscript|]. intros content.
  apply only_prints_bind; [apply only_prints_head_text|]. intros text.
  apply only_prints_write_out.
Qed.

Lemma only_prints_for_each {A} (body : A -> M unit) l :
  (forall x, only_prints (body x)) -> only_prints (for_each body l).
Proof.
  intros Hb. induction l as [|x l IH]; simpl; [apply only_prints_ret|].
  apply only_prints_bind; [apply Hb | by intros _].
Qed.

Lemma only_prints_resume w : only_prints (resume w).
Proof.
  unfold resume. destruct (py_truthy _); [|apply only_prints_write_out].
  apply only_prints_bind; [apply only_prints_write_out|]. intros _.
  apply only_prints_bind; [apply only_prints_tail_items|]. intros items.
  apply only_prints_for_each, only_prints_show_message.
Qed.

Lemma only_prints_read_message stdin args : only_prints (read_message stdin args).
Proof.
  unfold read_message. destruct (negb _); [apply only_prints_ret|].
  destruct args; [|apply only_prints_ret].
  apply only_prints_bind; [apply only_prints_write_out | intros _; apply only_prints_ret].
Qed.

(** What a call of [chat] does to the world, in every case. *)
Lemma chat_effects w message stream s :
  (calls (snd (chat w message stream s)) = calls s \/
   exists c, calls (snd (chat w message stream s)) = calls s ++ [c]) /\
  ((exists w', fst (chat w message stream s) = Ok w' /\
               err (snd (chat w message stream s)) = err s) \/
   (fst (chat w message stream s) = Exit 1 /\
    files (snd (chat w message stream s)) = files s /\
    exists line, err (snd (chat w message stream s)) = err s ++ [line])).
Proof.
  assert (Hrep : forall e s1,
            fst (reported e s1) = Exit 1 /\ files (snd (reported e s1)) = files s1 /\
            exists line, err (snd (reported e s1)) = err s1 ++ [line]).
  { intros e s1. split; [reflexivity|]. split; [reflexivity|]. by eexists. }
  assert (Hfin : forall log s1,
            (exists w', fst (finish w log s1) = Ok w' /\ err (snd (finish w log s1)) = err s1) \/
            (fst (finish w log s1) = Exit 1 /\ files (snd (finish w log s1)) = files s1 /\
             exists line, err (snd (finish w log s1)) = err s1 ++ [line])).
  { intros log s1. unfold finish. destruct (str_truthy _); [left; by eexists|right; apply Hrep]. }
  destruct (conversation_history w) as [| | | | |log|] eqn:Hh;
    try (rewrite chat_not_a_list by (rewrite Hh; discriminate);
         split; [by left | right; apply Hrep]).
  destruct stream.
  - destruct (messages_stream (client w) (request_for w log message))
      as [fragments failure] eqn:Hs.
    rewrite (chat_stream_eq _ _ _ _ _ _ Hh Hs). cbn zeta.
    set (s1 := after_call _ _ s).
    destruct failure as [e|].
    + split; [right; by eexists | right; exact (Hrep e s1)].
    + split; [right; rewrite finish_calls; by eexists | exact (Hfin _ s1)].
  - rewrite (chat_create_eq _ _ _ _ Hh). cbn zeta.
    set (s1 := after_call _ [] s).
    destruct (messages_create _ _) as [e|[|[reply|cls] rest]];
      try (split; [right; by eexists | right; exact (Hrep _ s1)]).
    split; [right; rewrite finish_calls; by eexists|].
    exact (Hfin _ (after_call (Create (request_for w log message)) [reply +:+ nl] s)).
Qed.

Lemma mode_flag_true args :
  mode_flag args = true ->
  (mem "--help" args || mem "-h" args = true) \/
  (mem "--help" args || mem "-h" args = false /\
   mem "--version" args || mem "-v" args = true) \/
  (mem "--help" args || mem "-h" args = false /\
   mem "--version" args || mem "-v" args = false /\
   mem "--clear" args = true) \/
  (mem "--help" args || mem "-h" args = false /\
   mem "--version" args || mem "-v" args = false /\
   mem "--clear" args = false /\
   mem "--continue" args || mem "--resume" args = true).
Proof.
  unfold mode_flag.
  destruct (mem "--help" args), (mem "-h" args), (mem "--version" args),
    (mem "-v" args), (mem "--clear" args), (mem "--continue" args),
    (mem "--resume" args); cbn; intros H; try discriminate; auto 10.
Qed.

Lemma shows_only_true args :
  shows_only args = true ->
  (mem "--help" args || mem "-h" args = true) \/
  (mem "--help" args || mem "-h" args = false /\
   mem "--version" args || mem "-v" args = true) \/
  (mem "--help" args || mem "-h" args = false /\
   mem "--version" args || mem "-v" args = false /\
   mem "--clear" args = false /\
   mem "--continue" args || mem "--resume" args = true).
Proof.
  unfold shows_only.
  destruct (mem "--help" args), (mem "-h" args), (mem "--version" args),
    (mem "-v" args), (mem "--clear" args), (mem "--continue" args),
    (mem "--resume" args); cbn; intros H; try discriminate; auto 10.
Qed.

Lemma handle_command_resume stdin w args s :
  mem "--help" args || mem "-h" args = false ->
  mem "--version" args || mem "-v" args = false ->
  mem "--clear" args = false ->
  mem "--continue" args || mem "--resume" args = true ->
  handle_command stdin w args s =
  match resume w s with
  | (Ok _, s1) => (Ok w, s1)
  | (Raise e, s1) => (Raise e, s1)
  | (Exit c, s1) => (Exit c, s1)
  end.
Proof.
  intros H1 H2 H3 H4. unfold handle_command. rewrite H1, H2, H3, H4. unfold bind.
  by destruct (resume w s) as [[[]|e|c] s1].
Qed.

Lemma handle_command_clear stdin w args s :
  mem "--help" args || mem "-h" args = false ->
  mem "--version" args || mem "-v" args = false ->
  mem "--clear" args = true ->
  handle_command stdin w args s =
  if str_truthy (os_path_dirname (session_file w))
  then (Ok (set_history w (JArr [])),
        World (<[session_file w := json_dumps (JArr [])]> (files s))
              (out s ++ ["Session cleared" +:+ nl]) (err s) (calls s))
  else (Raise no_such_directory, s).
Proof.
  intros H1 H2 H3. unfold handle_command. rewrite H1, H2, H3. unfold bind.
  rewrite save_session_eq. cbn [session_file set_history conversation_history].
  by destruct (str_truthy _).
Qed.

(** With a mode flag: no request, nothing on the error stream, no
    [sys.exit]; and no file written unless [--clear] is served. *)
Lemma handle_command_flag stdin w args s :
  mode_flag args = true ->
  calls (snd (handle_command stdin w args s)) = calls s /\
  err (snd (handle_command stdin w args s)) = err s /\
  (forall c, fst (handle_command stdin w args s) <> Exit c) /\
  (shows_only args = true -> files (snd (handle_command stdin w args s)) = files s).
Proof.
  intros Hm.
  assert (Hres :
            let r := handle_command stdin w args s in
            r = match resume w s with
                | (Ok _, s1) => (Ok w, s1)
                | (Raise e, s1) => (Raise e, s1)
                | (Exit c, s1) => (Exit c, s1)
                end ->
            calls (snd r) = calls s /\ err (snd r) = err s /\
            (forall c, fst r <> Exit c) /\ files (snd r) = files s).
  { intros r ->. destruct (only_prints_resume w s) as [(Hf & Hc & He) Hx].
    destruct (resume w s) as [[[]|e|c] s1]; simpl in *; repeat split; try done.
    by destruct (Hx c). }
  destruct (mode_flag_true _ Hm) as [H1|[[H1 H2]|[(H1 & H2 & H3)|(H1 & H2 & H3 & H4)]]].
  - unfold handle_command. rewrite H1. by repeat split.
  - unfold handle_command. rewrite H1, H2. by repeat split.
  - rewrite (handle_command_clear _ _ _ _ H1 H2 H3).
    destruct (str_truthy _); repeat split; try done;
      intros Hs; destruct (shows_only_true _ Hs) as [?|[[? ?]|(? & ? & ? & ?)]];
      congruence.
  - destruct (Hres (handle_command_resume _ _ _ _ H1 H2 H3 H4))
      as (Hc & He & Hx & Hf).
    by repeat split.
Qed.

(** X1.  One invocation contacts the remote API at most once, and not at all
    when the arguments hold a mode flag, whatever the stored log holds. *)
Theorem at_most_one_request (stdin : stdin_t) (w : wrapper) (args : list string)
    (s : world) :
  (calls (snd (handle_command stdin w args s)) = calls s \/
   exists c, calls (snd (handle_command stdin w args s)) = calls s ++ [c]) /\
  (mode_flag args = true -> calls (snd (handle_command stdin w args s)) = calls s).
Proof.
  split; [|intros Hm; by destruct (handle_command_flag stdin w args s Hm)].
  destruct (mode_flag args) eqn:Hm.
  - left. by destruct (handle_command_flag stdin w args s Hm).
  - rewrite (handle_command_message _ _ _ _ Hm).
    destruct (only_prints_read_message stdin (positional args) s) as [(Hf & Hc & He) Hx].
    destruct (read_message _ _ s) as [[message|e|c] s1]; simpl in *; [|by left..].
    destruct (str_truthy message); [|by left].
    rewrite <- Hc. apply chat_effects.
Qed.

(** X2.  The flags that only show something ([--help], [-h], [--version],
    [-v], and [--continue] / [--resume] without [--clear]) write no file,
    issue no request and leave the error stream alone, whatever the stored log
    holds; the call returns or ends in an uncaught exception, it never calls
    [sys.exit]. *)
Theorem showing_flags_write_nothing (stdin : stdin_t) (w : wrapper)
    (args : list string) (s : world) :
  shows_only args = true ->
  only_printed s (snd (handle_command stdin w args s)) /\
  (fst (handle_command stdin w args s) = Ok w \/
   exists e, fst (handle_command stdin w args s) = Raise e).
Proof.
  intros Hs.
  assert (Hm : mode_flag args = true).
  { unfold mode_flag. unfold shows_only in Hs.
    destruct (mem "--help" args), (mem "-h" args), (mem "--version" args),
      (mem "-v" args), (mem "--clear" args), (mem "--continue" args),
      (mem "--resume" args); done. }
  destruct (handle_command_flag stdin w args s Hm) as (Hc & He & Hx & Hf).
  split; [by repeat split; auto|].
  destruct (shows_only_true _ Hs) as [H1|[[H1 H2]|(H1 & H2 & H3 & H4)]].
  - left. unfold handle_command. by rewrite H1.
  - left. unfold handle_command. by rewrite H1, H2.
  - rewrite (handle_command_resume _ _ _ _ H1 H2 H3 H4).
    destruct (only_prints_resume w s) as [_ Hr].
    destruct (resume w s) as [[[]|e|c] s1]; simpl; eauto. by destruct (Hr c).
Qed.

(** *** Exit status *)

Lemma init_cases anthropic environ s :
  init anthropic environ s =
    (Exit 1,
     World (files s) (out s)
           (err s ++ ["Error: No API key found. Please set CLAUDE_API_KEY or ANTHROPIC_API_KEY" +:+ nl])
           (calls s)) \/
  (exists e, init anthropic environ s = (Raise e, s)) \/
  (exists w, init anthropic environ s = (Ok w, s)).
Proof.
  unfold init. destruct (py_or _ _) as [[|c k]|]; try (left; reflexivity).
  destruct (py_int _); [|right; left; by eexists].
  right; right.
  match goal with
  | |- context [load_session ?w0 s] =>
      destruct (load_session_result w0 s) as (h & Hload & _)
  end.
  rewrite Hload. by eexists.
Qed.

Lemma handle_command_status stdin w args s :
  (forall c, fst (handle_command stdin w args s) = Exit c -> c = 1%Z) /\
  (forall w', fst (handle_command stdin w args s) = Ok w' ->
     err (snd (handle_command stdin w args s)) = err s).
Proof.
  destruct (mode_flag args) eqn:Hm.
  - destruct (handle_command_flag stdin w args s Hm) as (Hc & He & Hx & _).
    split; [intros c H; by destruct (Hx c)|done].
  - rewrite (handle_command_message _ _ _ _ Hm).
    destruct (only_prints_read_message stdin (positional args) s) as [(Hf & Hc & He) Hx].
    destruct (read_message _ _ s) as [[message|e|c] s1]; simpl in *;
      [|split; [discriminate|done]|by destruct (Hx c)].
    destruct (str_truthy message); [|split; [discriminate|done]].
    destruct (chat_effects w message (mem "--stream" args) s1)
      as [_ [(w' & Hok & Herr)|(Hexit & _)]].
    + rewrite Hok. split; [discriminate|]. intros _ _. congruence.
    + rewrite Hexit. split; [by intros c [= <-]|discriminate].
Qed.

(** X3.  The exit status of the program is 0 or 1, and a run that ends with
    status 0 through a normal return has written nothing to the error
    stream. *)
Theorem exit_status_zero_or_one (anthropic : string -> api)
    (environ : gmap string string) (stdin : stdin_t) (argv : list string) (s : world) :
  (exit_code (fst (main anthropic environ stdin argv s)) = 0%Z \/
   exit_code (fst (main anthropic environ stdin argv s)) = 1%Z) /\
  (fst (main anthropic environ stdin argv s) = Ok tt ->
   err (snd (main anthropic environ stdin argv s)) = err s).
Proof.
  unfold main, bind.
  destruct (init_cases anthropic environ s) as [->|[[e ->]|[w ->]]];
    [split; [by right|discriminate]..|].
  destruct (handle_command_status stdin w (drop 1 argv) s) as [Hx Hok].
  destruct (handle_command stdin w (drop 1 argv) s) as [[w'|e|c] s1]; simpl in *.
  - split; [by left|]. intros _. by apply (Hok w').
  - split; [by right|discriminate].
  - split; [right; by apply Hx|discriminate].
Qed.


(** *** A stored document that is not a list, a response without text *)

(** X4.  A session file whose document parses but is not a list is taken as
    the log without complaint; every later message then ends the run with
    exit code 1 and an [AttributeError] report, before any request is made
    and with the files untouched. *)
Theorem stored_non_list_blocks_chat (w : wrapper) (message : string) (stream : bool)
    (s : world) (text : string) (v : json) :
  files s !! session_file w = Some text ->
  json_loads text = Some v ->
  (forall log, v <> JArr log) ->
  load_session w s = (Ok (set_history w v), s) /\
  chat (set_history w v) message stream s =
    (Exit 1,
     World (files s) (out s)
           (err s ++ [("Error: " +:+ "'" +:+ type_name v
                         +:+ "' object has no attribute 'append'") +:+ nl])
           (calls s)).
Proof.
  intros Hfile Hloads Hv. split.
  - rewrite (load_session_present _ _ _ Hfile), Hloads. reflexivity.
  - rewrite chat_not_a_list; [reflexivity|]. destruct w; exact Hv.
Qed.

(** X5.  In the non-streaming mode a response whose content is empty, or
    whose first block carries no text, ends the run with exit code 1 after the
    request went out: the report is that of the [IndexError] or of the
    [AttributeError], nothing is printed to the output and no file is
    written. *)
Theorem response_without_text (w : wrapper) (message : string) (s : world)
    (log : list json) (content : list block) :
  conversation_history w = JArr log ->
  messages_create (client w) (request_for w log message) = inr content ->
  (forall reply rest, content <> TextBlock reply :: rest) ->
  exists e,
    chat w message false s =
      (Exit 1,
       World (files s) (out s) (err s ++ [("Error: " +:+ exn_str e) +:+ nl])
             (calls s ++ [Create (request_for w log message)])) /\
    (content = [] -> e = Exn "IndexError" "list index out of range") /\
    (forall cls rest, content = OtherBlock cls :: rest ->
       e = Exn "AttributeError" ("'" +:+ cls +:+ "' object has no attribute 'text'")).
Proof.
  intros Hh Hc Hnot. rewrite (chat_create_eq _ _ _ _ Hh), Hc.
  destruct content as [|[reply|cls] rest].
  - eexists. split; [|split; [done|discriminate]].
    unfold reported, after_call. cbn. by rewrite app_nil_r.
  - by destruct (Hnot reply rest).
  - eexists. split; [|split; [discriminate|by intros ? ? [= <- _]]].
    unfold reported, after_call. cbn. by rewrite app_nil_r.
Qed.

(** *** Trimming of the text read from standard input *)

Lemma lstrip_spec s :
  exists pre, s = pre +:+ lstrip s /\ all_space pre = true /\
              starts_with_space (lstrip s) = false.
Proof.
  induction s as [|c r (pre & Heq & Hpre & Hst)].
  - by exists EmptyString.
  - cbn [lstrip]. destruct (is_space c) eqn:Hc.
    + exists (String c pre). rewrite append_cons, <- Heq. cbn. by rewrite Hc, Hpre.
    + exists EmptyString. by repeat split.
Qed.

Lemma rstrip_spec s :
  exists post, s = rstrip s +:+ post /\ all_space post = true /\
               ends_with_space (rstrip s) = false.
Proof.
  induction s as [|c r (post & Heq & Hpost & Hend)].
  - by exists EmptyString.
  - cbn [rstrip]. destruct (rstrip r) as [|c' r'] eqn:Hr.
    + change (EmptyString +:+ post) with post in Heq. subst post.
      destruct (is_space c) eqn:Hc.
      * exists (String c r). split; [reflexivity|].
        split; [cbn; by rewrite Hc, Hpost|reflexivity].
      * exists r. split; [reflexivity|]. split; [exact Hpost|exact Hc].
    + exists post. rewrite !append_cons. rewrite append_cons in Heq.
      rewrite <- Heq. split; [reflexivity|]. split; [exact Hpost|exact Hend].
Qed.

Lemma rstrip_keeps_start s :
  starts_with_space s = false -> starts_with_space (rstrip s) = false.
Proof.
  destruct s as [|c r]; [done|]. cbn [rstrip starts_with_space]. intros Hc.
  destruct (rstrip r); [by rewrite Hc|done].
Qed.

Lemma lstrip_all_space s : all_space s = true -> lstrip s = EmptyString.
Proof.
  induction s as [|c r IH]; [done|]. cbn. destruct (is_space c); [exact IH|done].
Qed.

Lemma all_space_app a b :
  all_space (a +:+ b) = all_space a && all_space b.
Proof.
  induction a as [|c r IH]; [done|]. rewrite append_cons. cbn.
  rewrite IH. by destruct (is_space c).
Qed.

Lemma strip_spec s :
  exists pre post,
    s = pre +:+ strip s +:+ post /\
    all_space pre = true /\ all_space post = true /\
    starts_with_space (strip s) = false /\ ends_with_space (strip s) = false.
Proof.
  destruct (lstrip_spec s) as (pre & Heq & Hpre & Hst).
  destruct (rstrip_spec (lstrip s)) as (post & Heq' & Hpost & Hend).
  exists pre, post. unfold strip. rewrite <- Heq', <- Heq.
  repeat split; try done. by apply rstrip_keeps_start.
Qed.

Lemma strip_empty s : strip s = EmptyString <-> all_space s = true.
Proof.
  split.
  - intros H. destruct (strip_spec s) as (pre & post & Heq & Hpre & Hpost & _).
    rewrite H in Heq. rewrite Heq, !all_space_app, Hpre, Hpost. reflexivity.
  - intros H. unfold strip. by rewrite lstrip_all_space.
Qed.


Lemma lstrip_fixed s : starts_with_space s = false -> lstrip s = s.
Proof. destruct s as [|c r]; [done|]. cbn. by intros ->. Qed.

Lemma rstrip_fixed s : ends_with_space s = false -> rstrip s = s.
Proof.
  induction s as [|c r IH]; [done|]. cbn [rstrip ends_with_space].
  destruct r as [|c' r'].
  - cbn. by intros ->.
  - intros H. by rewrite (IH H).
Qed.

Lemma read_message_stdin stdin args s :
  isatty stdin = false \/ args = [] ->
  exists s1,
    read_message stdin args s = (Ok (strip (data stdin)), s1) /\
    only_printed s s1 /\ (isatty stdin = false -> s1 = s).
Proof.
  intros H. unfold read_message. destruct (isatty stdin) eqn:Htty; cbn.
  - destruct H as [H| ->]; [done|]. eexists. by repeat split.
  - exists s. by repeat split.
Qed.

(** X6.  Without a mode flag, when the text comes from standard input (it is
    piped, or no argument is left and the prompt is shown): input made of
    whitespace only sends nothing and returns normally, having printed the
    prompt at most; any other input is sent trimmed, and the trimmed text is
    not empty. *)
Theorem blank_input_sends_nothing (stdin : stdin_t) (w : wrapper)
    (args : list string) (s : world) :
  mode_flag args = false ->
  isatty stdin = false \/ positional args = [] ->
  (all_space (data stdin) = true ->
   fst (handle_command stdin w args s) = Ok w /\
   only_printed s (snd (handle_command stdin w args s))) /\
  (all_space (data stdin) = false ->
   exists s1,
     only_printed s s1 /\
     str_truthy (strip (data stdin)) = true /\
     handle_command stdin w args s =
       chat w (strip (data stdin)) (mem "--stream" args) s1).
Proof.
  intros Hm Hin. rewrite (handle_command_message _ _ _ _ Hm).
  destruct (read_message_stdin stdin (positional args) s Hin) as (s1 & -> & Hs1 & _).
  split; intros Hsp.
  - apply strip_empty in Hsp. by rewrite Hsp.
  - exists s1. destruct (strip (data stdin)) eqn:Hstrip; [|done].
    apply strip_empty in Hstrip. congruence.
Qed.

(** X7.  The text read from standard input is the input without its leading
    and trailing whitespace: the input is that text between two runs of
    whitespace, the text neither starts nor ends with a whitespace character,
    and trimming it again changes nothing. *)
Theorem stdin_message_is_trimmed (stdin : stdin_t) (args : list string) (s : world) :
  isatty stdin = false \/ args = [] ->
  exists message s1 pre post,
    read_message stdin args s = (Ok message, s1) /\
    data stdin = pre +:+ message +:+ post /\
    all_space pre = true /\ all_space post = true /\
    starts_with_space message = false /\ ends_with_space message = false /\
    strip message = message.
Proof.
  intros Hin. destruct (read_message_stdin stdin args s Hin) as (s1 & Hread & _).
  destruct (strip_spec (data stdin)) as (pre & post & Heq & Hpre & Hpost & Hst & Hend).
  exists (strip (data stdin)), s1, pre, post. repeat split; try done.
  unfold strip at 1. by rewrite (lstrip_fixed _ Hst), (rstrip_fixed _ Hend).
Qed.

(** *** The arguments as the message *)

Lemma mem_app x l1 l2 : mem x (l1 ++ l2) = mem x l1 || mem x l2.
Proof. unfold mem. apply existsb_app. Qed.

Lemma remove_first_app x pre post :
  mem x pre = false -> remove_first x (pre ++ x :: post) = pre ++ post.
Proof.
  induction pre as [|y pre IH]; cbn.
  - by rewrite String.eqb_refl.
  - destruct (String.eqb x y); [done|]. cbn. intros H. by rewrite IH.
Qed.

(** X8.  [--stream] is taken out of the arguments once: of
    [pre ++ "--stream" :: post], where [pre] holds no [--stream], the words
    [pre ++ post] remain in their order, so a second [--stream] stays in the
    message.  On a terminal and without a mode flag these words, joined by
    single spaces, are the message of the streaming exchange. *)
Theorem stream_flag_removed_once (stdin : stdin_t) (w : wrapper)
    (pre post : list string) (s : world) :
  mem "--stream" pre = false ->
  positional (pre ++ "--stream" :: post) = pre ++ post /\
  (mode_flag (pre ++ "--stream" :: post) = false ->
   isatty stdin = true -> pre ++ post <> [] ->
   handle_command stdin w (pre ++ "--stream" :: post) s =
   if str_truthy (join " " (pre ++ post))
   then chat w (join " " (pre ++ post)) true s else (Ok w, s)).
Proof.
  intros Hpre.
  assert (Hmem : mem "--stream" (pre ++ "--stream" :: post) = true).
  { rewrite mem_app. cbn. by rewrite orb_true_r. }
  assert (Hpos : positional (pre ++ "--stream" :: post) = pre ++ post).
  { unfold positional. rewrite Hmem. by apply remove_first_app. }
  split; [exact Hpos|]. intros Hm Htty Hne.
  rewrite (handle_command_message _ _ _ _ Hm), Hpos, Hmem.
  by rewrite (read_message_args _ _ _ Htty Hne).
Qed.

Lemma join_empty sep args :
  str_truthy sep = true ->
  join sep args = EmptyString <-> args = [] \/ args = [EmptyString].
Proof.
  intros Hsep. split.
  - destruct args as [|x [|y r]]; cbn [join]; [by left|intros ->; by right|].
    destruct x; [|done]. destruct sep; done.
  - by intros [-> | ->].
Qed.

(** X9.  On a terminal, without a mode flag and with a list as the log,
    arguments left after [--stream] are always sent, joined by single spaces,
    in exactly one request - unless they are the single empty word, the only
    arguments that join to the empty text, for which nothing happens. *)
Theorem arguments_are_sent (stdin : stdin_t) (w : wrapper) (args : list string)
    (s : world) (log : list json) :
  mode_flag args = false ->
  isatty stdin = true ->
  positional args <> [] ->
  conversation_history w = JArr log ->
  (positional args = [EmptyString] -> handle_command stdin w args s = (Ok w, s)) /\
  (positional args <> [EmptyString] ->
   handle_command stdin w args s =
     chat w (join " " (positional args)) (mem "--stream" args) s /\
   calls (snd (handle_command stdin w args s)) =
     calls s ++ [call_for (mem "--stream" args)
                   (request_for w log (join " " (positional args)))]).
Proof.
  intros Hm Htty Hne Hh. rewrite (handle_command_message _ _ _ _ Hm).
  rewrite (read_message_args _ _ _ Htty Hne). split.
  - by intros ->.
  - intros Hne'. destruct (join " " (positional args)) eqn:Hj.
    + apply join_empty in Hj; [|done]. by destruct Hj.
    + cbn [str_truthy]. split; [done|]. by apply chat_calls.
Qed.


(** *** The session directory *)

Lemma path_head_no_slash b : has_slash b = false -> path_head b = EmptyString.
Proof.
  induction b as [|c r IH]; [done|]. cbn. intros H.
  apply orb_false_elim in H as [Hc Hr]. by rewrite (IH Hr), Hc.
Qed.

Lemma path_head_app a b :
  has_slash b = false -> path_head (a +:+ b) = path_head a.
Proof.
  intros Hb. induction a as [|c r IH].
  - by apply path_head_no_slash.
  - rewrite append_cons. cbn [path_head]. by rewrite IH.
Qed.

Lemma path_head_ends_with_slash a : ends_with_slash a = true -> path_head a = a.
Proof.
  induction a as [|c r IH]; [done|]. cbn [ends_with_slash path_head].
  destruct r as [|c' r'].
  - cbn. by intros ->.
  - intros H. by rewrite (IH H).
Qed.

Lemma ends_with_slash_snoc a : ends_with_slash (a +:+ String slash EmptyString) = true.
Proof.
  induction a as [|c r IH]; [done|]. rewrite append_cons. cbn [ends_with_slash].
  destruct r; [done|]. by rewrite append_cons in *.
Qed.

Lemma all_slashes_ends a :
  all_slashes a = true -> str_truthy a = true -> ends_with_slash a = true.
Proof.
  induction a as [|c r IH]; [done|]. cbn [all_slashes ends_with_slash].
  intros H _. apply andb_prop in H as [Hc Hr].
  destruct r; [done|]. by apply IH.
Qed.

Lemma rstrip_slashes_empty a :
  rstrip_slashes a = EmptyString -> all_slashes a = true.
Proof.
  induction a as [|c r IH]; [done|]. cbn.
  destruct (rstrip_slashes r); [|done].
  destruct (Ascii.eqb c slash); [|done]. intros _. by apply IH.
Qed.

Lemma rstrip_slashes_fixed a : ends_with_slash a = false -> rstrip_slashes a = a.
Proof.
  induction a as [|c r IH]; [done|]. cbn [ends_with_slash rstrip_slashes].
  destruct r as [|c' r'].
  - cbn. by intros ->.
  - intros H. by rewrite (IH H).
Qed.

Lemma rstrip_slashes_snoc a :
  rstrip_slashes (a +:+ String slash EmptyString) = rstrip_slashes a.
Proof.
  induction a as [|c r IH]; [done|]. rewrite append_cons. cbn [rstrip_slashes].
  by rewrite IH.
Qed.

Lemma all_slashes_snoc a :
  all_slashes (a +:+ String slash EmptyString) = all_slashes a.
Proof.
  induction a as [|c r IH]; [done|]. rewrite append_cons. cbn [all_slashes].
  by rewrite IH.
Qed.

(** [dirname(join(d, f))] for a file name without a slash. *)
Lemma dirname_join d f :
  has_slash f = false ->
  os_path_dirname (os_path_join d f) =
  if ends_with_slash d then (if all_slashes d then d else rstrip_slashes d) else d.
Proof.
  intros Hf. unfold os_path_join.
  assert (starts_with_slash f = false) as ->.
  { destruct f; [done|]. cbn in *. by apply orb_false_elim in Hf as [-> _]. }
  destruct d as [|c r]; cbn [str_truthy negb orb].
  { unfold os_path_dirname. change (EmptyString +:+ f) with f.
    by rewrite (path_head_no_slash _ Hf). }
  set (d := String c r) in *. unfold os_path_dirname.
  destruct (ends_with_slash d) eqn:Hend.
  - rewrite (path_head_app _ _ Hf), (path_head_ends_with_slash _ Hend).
    by destruct (all_slashes d).
  - rewrite <- append_assoc, (path_head_app _ _ Hf).
    rewrite (path_head_ends_with_slash _ (ends_with_slash_snoc d)).
    rewrite all_slashes_snoc, rstrip_slashes_snoc.
    destruct (all_slashes d) eqn:Hall.
    { rewrite (all_slashes_ends d Hall) in Hend; done. }
    rewrite (rstrip_slashes_fixed _ Hend). unfold d. by rewrite append_cons.
Qed.

Lemma dirname_join_truthy d f :
  has_slash f = false ->
  str_truthy (os_path_dirname (os_path_join d f)) = str_truthy d.
Proof.
  intros Hf. rewrite (dirname_join _ _ Hf).
  destruct (ends_with_slash d) eqn:Hend; [|done].
  assert (str_truthy d = true) as -> by (by destruct d).
  destruct (all_slashes d) eqn:Hall; [by destruct d|].
  destruct (rstrip_slashes d) eqn:Hr; [|done].
  apply rstrip_slashes_empty in Hr. congruence.
Qed.

(** X10.  The directory of the session file is the session directory itself
    when that does not end with a slash; it is empty exactly when
    [CLAUDE_SESSION_DIR] is set to the empty text, and exactly then saving
    the session fails, with [FileNotFoundError] and no change. *)
Theorem session_directory (environ : gmap string string) :
  let dir := default "/app/sessions" (environ !! "CLAUDE_SESSION_DIR") in
  (ends_with_slash dir = false -> os_path_dirname (session_path environ) = dir) /\
  (str_truthy (os_path_dirname (session_path environ)) = false <->
   environ !! "CLAUDE_SESSION_DIR" = Some EmptyString) /\
  (forall w s, session_file w = session_path environ ->
     save_session w s = (Raise no_such_directory, s) <->
     environ !! "CLAUDE_SESSION_DIR" = Some EmptyString).
Proof.
  intros dir.
  assert (Hdir : str_truthy (os_path_dirname (session_path environ)) = false <->
                 environ !! "CLAUDE_SESSION_DIR" = Some EmptyString).
  { unfold session_path. rewrite dirname_join_truthy by reflexivity.
    destruct (environ !! "CLAUDE_SESSION_DIR") as [[|c r]|]; cbn; split; done. }
  split; [|split; [exact Hdir|]].
  - intros Hend. unfold session_path. fold dir.
    rewrite dirname_join by reflexivity. by rewrite Hend.
  - intros w s Hw. rewrite save_session_eq, Hw, <- Hdir.
    destruct (str_truthy _); split; done.
Qed.


(** *** Clearing the session *)

Lemma help_or_version_false args :
  help_or_version args = false ->
  mem "--help" args || mem "-h" args = false /\
  mem "--version" args || mem "-v" args = false.
Proof.
  unfold help_or_version.
  destruct (mem "--help" args), (mem "-h" args), (mem "--version" args),
    (mem "-v" args); done.
Qed.

(** X11.  [--clear] without a help or version flag: the log is emptied
    whatever it held, the session file receives the empty list and
    [Session cleared] is printed, without looking at the other arguments or at
    standard input; when the session file has no directory the exception of
    [save_session] escapes and nothing is written or printed. *)
Theorem clear_resets_session (stdin : stdin_t) (w : wrapper) (args : list string)
    (s : world) :
  help_or_version args = false ->
  mem "--clear" args = true ->
  (str_truthy (os_path_dirname (session_file w)) = true ->
   handle_command stdin w args s =
     (Ok (set_history w (JArr [])),
      World (<[session_file w := json_dumps (JArr [])]> (files s))
            (out s ++ ["Session cleared" +:+ nl]) (err s) (calls s))) /\
  (str_truthy (os_path_dirname (session_file w)) = false ->
   handle_command stdin w args s = (Raise no_such_directory, s)).
Proof.
  intros Hhv Hclear. destruct (help_or_version_false _ Hhv) as [H1 H2].
  rewrite (handle_command_clear _ _ _ _ H1 H2 Hclear).
  split; by intros ->.
Qed.

(** *** __init__ *)

Lemma init_ok anthropic environ key n s :
  py_or (environ !! "CLAUDE_API_KEY") (environ !! "ANTHROPIC_API_KEY") = Some key ->
  str_truthy key = true ->
  py_int (default "4096" (environ !! "MAX_TOKENS")) = Some n ->
  init anthropic environ s = load_session (fresh_wrapper anthropic environ key n) s.
Proof.
  intros Hk Ht Hn. unfold init. rewrite Hk. destruct key; [done|]. by rewrite Hn.
Qed.

Lemma session_dirname_empty environ :
  str_truthy (os_path_dirname (session_path environ)) = false <->
  environ !! "CLAUDE_SESSION_DIR" = Some EmptyString.
Proof.
  unfold session_path. rewrite dirname_join_truthy by reflexivity.
  destruct (environ !! "CLAUDE_SESSION_DIR") as [[|c r]|]; cbn; split; done.
Qed.




(** *** From one invocation to the next *)

Lemma init_restores anthropic environ key n s text v :
  py_or (environ !! "CLAUDE_API_KEY") (environ !! "ANTHROPIC_API_KEY") = Some key ->
  str_truthy key = true ->
  py_int (default "4096" (environ !! "MAX_TOKENS")) = Some n ->
  files s !! session_path environ = Some text ->
  json_loads text = Some v ->
  init anthropic environ s =
  (Ok (set_history (fresh_wrapper anthropic environ key n) v), s).
Proof.
  intros Hk Ht Hn Hfile Hloads. rewrite (init_ok _ _ _ _ _ Hk Ht Hn).
  rewrite (load_session_present _ _ text) by exact Hfile. by rewrite Hloads.
Qed.

(** X14.  A run with [--clear] followed by a run with [--continue] (or
    [--resume]): the first leaves the empty list in the session file and
    prints [Session cleared], the second reads it back and reports
    [No previous conversation found]; both return normally and neither
    contacts the remote API, whatever the session file held before. *)
Theorem clear_then_continue (anthropic : string -> api) (environ : gmap string string)
    (stdin1 stdin2 : stdin_t) (argv1 argv2 : list string) (key : string) (n : Z)
    (s : world) :
  py_or (environ !! "CLAUDE_API_KEY") (environ !! "ANTHROPIC_API_KEY") = Some key ->
  str_truthy key = true ->
  py_int (default "4096" (environ !! "MAX_TOKENS")) = Some n ->
  environ !! "CLAUDE_SESSION_DIR" <> Some EmptyString ->
  json_loads (json_dumps (JArr [])) = Some (JArr []) ->
  help_or_version (drop 1 argv1) = false ->
  mem "--clear" (drop 1 argv1) = true ->
  earlier_flag (drop 1 argv2) = false ->
  mem "--continue" (drop 1 argv2) || mem "--resume" (drop 1 argv2) = true ->
  let s1 := World (<[session_path environ := json_dumps (JArr [])]> (files s))
                  (out s ++ ["Session cleared" +:+ nl]) (err s) (calls s) in
  main anthropic environ stdin1 argv1 s = (Ok tt, s1) /\
  main anthropic environ stdin2 argv2 s1 =
    (Ok tt, World (files s1) (out s1 ++ ["No previous conversation found" +:+ nl])
                  (err s) (calls s)).
Proof.
  intros Hk Ht Hn Hdir Hrt Hhv Hclear Hearlier Hcont s1.
  assert (Hd : str_truthy (os_path_dirname (session_path environ)) = true).
  { destruct (str_truthy (os_path_dirname (session_path environ))) eqn:E; [done|].
    by apply session_dirname_empty in E. }
  split.
  - unfold main, bind. rewrite (init_ok _ _ _ _ _ Hk Ht Hn).
    destruct (load_session_result (fresh_wrapper anthropic environ key n) s)
      as (h & -> & _).
    destruct (help_or_version_false _ Hhv) as [H1 H2].
    rewrite (handle_command_clear _ _ _ _ H1 H2 Hclear).
    cbn [set_history session_file fresh_wrapper]. by rewrite Hd.
  - unfold main, bind.
    rewrite (init_restores _ _ _ _ _ (json_dumps (JArr [])) (JArr []) Hk Ht Hn);
      [|by apply lookup_insert_eq|exact Hrt].
    destruct (earlier_flag_false _ Hearlier) as (H1 & H2 & H3).
    rewrite (handle_command_resume _ _ _ _ H1 H2 H3 Hcont).
    by rewrite (resume_stored _ [] s1).
Qed.

Lemma chat_replied w message stream s log printed reply :
  conversation_history w = JArr log ->
  str_truthy (os_path_dirname (session_file w)) = true ->
  remote_replies w (request_for w log message) stream printed reply ->
  chat w message stream s =
  (Ok (set_history w (JArr (turn_done log message reply))),
   World (<[session_file w := json_dumps (JArr (turn_done log message reply))]> (files s))
         (out s ++ printed) (err s)
         (calls s ++ [call_for stream (request_for w log message)])).
Proof.
  intros Hh Hd Hr. destruct stream; unfold remote_replies in Hr.
  - destruct Hr as [Hs ->]. rewrite (chat_stream_eq _ _ _ _ _ _ Hh Hs).
    unfold finish. by rewrite Hd.
  - destruct Hr as [[rest Hc] ->]. rewrite (chat_create_eq _ _ _ _ Hh), Hc.
    unfold finish. by rewrite Hd.
Qed.

(** X15.  The conversation carries over to the next invocation: after an
    exchange that succeeded, [__init__] run on the resulting files restores
    the log with the new user and assistant messages at its end (provided
    [json.load] reads back what [json.dump] wrote), and the request of the
    next message is built from that log. *)
Theorem conversation_carries_over (anthropic : string -> api)
    (environ : gmap string string) (key : string) (n : Z) (w : wrapper)
    (message : string) (stream : bool) (s : world) (log : list json)
    (printed : list string) (reply : string) :
  py_or (environ !! "CLAUDE_API_KEY") (environ !! "ANTHROPIC_API_KEY") = Some key ->
  str_truthy key = true ->
  py_int (default "4096" (environ !! "MAX_TOKENS")) = Some n ->
  environ !! "CLAUDE_SESSION_DIR" <> Some EmptyString ->
  session_file w = session_path environ ->
  conversation_history w = JArr log ->
  remote_replies w (request_for w log message) stream printed reply ->
  json_loads (json_dumps (JArr (turn_done log message reply)))
    = Some (JArr (turn_done log message reply)) ->
  exists w1 s1 w2,
    chat w message stream s = (Ok w1, s1) /\
    init anthropic environ s1 = (Ok w2, s1) /\
    conversation_history w2 = conversation_history w1 /\
    conversation_history w2 = JArr (log ++ [message_dict "user" message;
                                             message_dict "assistant" reply]) /\
    forall message' stream',
      calls (snd (chat w2 message' stream' s1)) =
      calls s ++ [call_for stream (request_for w log message);
                  call_for stream' (request_for w2 (turn_done log message reply) message')].
Proof.
  intros Hk Ht Hn Hdir Hfile Hh Hr Hrt.
  assert (Hd : str_truthy (os_path_dirname (session_file w)) = true).
  { rewrite Hfile.
    destruct (str_truthy (os_path_dirname (session_path environ))) eqn:E; [done|].
    by apply session_dirname_empty in E. }
  eexists _, _, (set_history (fresh_wrapper anthropic environ key n)
                   (JArr (turn_done log message reply))).
  split; [by apply chat_replied|].
  rewrite Hfile.
  split.
  { eapply init_restores; [exact Hk|exact Ht|exact Hn| |exact Hrt].
    by apply lookup_insert_eq. }
  split; [reflexivity|]. split.
  { cbn [conversation_history set_history]. unfold turn_done.
    by rewrite <- app_assoc. }
  intros message' stream'.
  rewrite (chat_calls _ _ _ _ (turn_done log message reply)) by reflexivity.
  cbn [calls]. by rewrite <- app_assoc.
Qed.

(** *** Resuming a log with a malformed message *)

Lemma for_each_app {A} (body : A -> M unit) l1 l2 s :
  for_each body (l1 ++ l2) s =
  match for_each body l1 s with
  | (Ok _, s1) => for_each body l2 s1
  | (Raise e, s1) => (Raise e, s1)
  | (Exit c, s1) => (Exit c, s1)
  end.
Proof.
  revert s. induction l1 as [|x l1 IH]; intros s; [done|].
  cbn [for_each app]. unfold bind.
  destruct (body x s) as [[[]|e|c] s1]; [apply IH|done..].
Qed.

Lemma show_message_missing_key kv k s :
  missing_key kv = Some k ->
  show_message (JObj kv) s = (Raise (Exn "KeyError" ("'" +:+ k +:+ "'")), s).
Proof.
  unfold missing_key, show_message, bind, subscript.
  destruct (dict_get "role" kv) as [r|]; [|by intros [= <-]].
  destruct (dict_get "content" kv) as [c|]; [done|]. by intros [= <-].
Qed.

(** X16.  [--continue] over a log whose shown part holds a dictionary
    without [role] or [content]: the header and the lines of the messages
    before it are printed, then the run ends with the uncaught [KeyError] for
    the missing key; nothing is written to the error stream or to a file. *)
Theorem resume_stops_at_malformed_message (stdin : stdin_t) (w : wrapper)
    (args : list string) (s : world) (log : list json) (ms : list (string * string))
    (kv : list (string * json)) (rest : list json) (k : string) :
  earlier_flag args = false ->
  mem "--continue" args || mem "--resume" args = true ->
  conversation_history w = JArr log ->
  slice_last 2 log = map stored ms ++ JObj kv :: rest ->
  missing_key kv = Some k ->
  handle_command stdin w args s =
    (Raise (Exn "KeyError" ("'" +:+ k +:+ "'")),
     World (files s)
           (out s ++ ("Resuming previous conversation..." +:+ nl) :: map shown ms)
           (err s) (calls s)).
Proof.
  intros Hearlier Hcont Hh Hslice Hk.
  destruct (earlier_flag_false _ Hearlier) as (H1 & H2 & H3).
  rewrite (handle_command_resume _ _ _ _ H1 H2 H3 Hcont).
  unfold resume. rewrite Hh.
  assert (py_truthy (JArr log) = true) as ->.
  { destruct log; [|done]. by destruct ms. }
  unfold bind, print, write_out, tail_items, ret. rewrite Hslice.
  rewrite for_each_app, for_each_stored. cbn [for_each]. unfold bind.
  rewrite (show_message_missing_key _ _ _ Hk). cbn.
  by rewrite <- app_assoc.
Qed.


(** X17.  When the session file has no directory (the session directory is
    the empty text), an exchange that the remote API answered still ends with
    exit code 1: the reply has been printed, the [FileNotFoundError] of
    [save_session] is reported on the error stream, and no file holds the
    exchange. *)
Theorem reply_lost_without_directory (w : wrapper) (message : string) (stream : bool)
    (s : world) (log : list json) (printed : list string) (reply : string) :
  conversation_history w = JArr log ->
  str_truthy (os_path_dirname (session_file w)) = false ->
  remote_replies w (request_for w log message) stream printed reply ->
  chat w message stream s =
  (Exit 1,
   World (files s) (out s ++ printed)
         (err s ++ [("Error: " +:+ "[Errno 2] No such file or directory: ''") +:+ nl])
         (calls s ++ [call_for stream (request_for w log message)])).
Proof.
  intros Hh Hd Hr. destruct stream; unfold remote_replies in Hr.
  - destruct Hr as [Hs ->]. rewrite (chat_stream_eq _ _ _ _ _ _ Hh Hs).
    unfold finish. by rewrite Hd.
  - destruct Hr as [[rest Hc] ->]. rewrite (chat_create_eq _ _ _ _ Hh), Hc.
    unfold finish. by rewrite Hd.
Qed.

End Properties.

(** ** Concrete runs *)

#[local] Existing Instance Sample.runtime.

Lemma chat_sends_last_ten_witness :
  let w := Sample.wrapper_with Sample.greeter Sample.five_turns in
  conversation_history w = Sample.log_of Sample.five_turns /\
  exists req,
    calls (snd (chat w "q6" true (Sample.world_with None))) = [call_for true req] /\
    length (req_messages req) = 10 /\
    last (req_messages req) = Some (message_dict "user" "q6").
Proof.
  intros w. split; [reflexivity|].
  destruct (chat_sends_last_ten w "q6" true (Sample.world_with None)
              (map Sample.stored_message Sample.five_turns) eq_refl)
    as (req & Hcalls & _ & _ & Hlen & _ & Hlast).
  exists req. split; [exact Hcalls|]. split; [exact Hlen|exact Hlast].
Defined.

Lemma load_session_absent_or_malformed_witness :
  load_session (Sample.wrapper_with Sample.greeter Sample.hello)
               (Sample.world_with (Some "{not json")) =
  (Ok (Sample.wrapper_with Sample.greeter []), Sample.world_with (Some "{not json")).
Proof.
  apply (proj1 (proj2 (load_session_absent_or_malformed
                         (Sample.wrapper_with Sample.greeter Sample.hello)
                         (Sample.world_with (Some "{not json")))) "{not json");
    reflexivity.
Defined.

Lemma chat_all_or_nothing_witness :
  chat (Sample.wrapper_with Sample.breaker Sample.hello) "again" true
       (Sample.world_with (Some (Sample.dumps (Sample.log_of Sample.hello)))) =
  (Exit 1,
   World {[ Sample.session_path := Sample.dumps (Sample.log_of Sample.hello) ]}
         ["Hi "] ["Error: Connection error." +:+ nl]
         [Stream (request_for (Sample.wrapper_with Sample.breaker Sample.hello)
                              (map Sample.stored_message Sample.hello) "again")]).
Proof.
  apply (proj1 (chat_all_or_nothing
                  (Sample.wrapper_with Sample.breaker Sample.hello) "again" true
                  (Sample.world_with (Some (Sample.dumps (Sample.log_of Sample.hello)))))
               (map Sample.stored_message Sample.hello) ["Hi "]
               (Exn "APIConnectionError" "Connection error."));
    reflexivity.
Defined.

(** The sample runtime reads back what it wrote for every document it
    knows. *)
Lemma sample_loads_dumps text v :
  json_loads text = Some v -> json_loads (json_dumps v) = Some v.
Proof.
  change (Sample.loads text = Some v -> Sample.loads (Sample.dumps v) = Some v).
  unfold Sample.loads at 1. unfold Sample.documents. cbn [map Sample.lookup_document].
  repeat (destruct (String.eqb text _);
          [intros [= <-]; vm_compute; reflexivity|]).
  discriminate.
Qed.

Lemma load_save_round_trip_witness :
  let w := Sample.wrapper_with Sample.greeter [] in
  let s := Sample.world_with (Some (Sample.dumps (Sample.log_of Sample.hello))) in
  exists w1 r s2,
    load_session w s = (Ok w1, s) /\
    save_session w1 s = (r, s2) /\
    load_session w s2 = (Ok w1, s2) /\
    conversation_history w1 = Sample.log_of Sample.hello.
Proof.
  intros w s.
  destruct (load_save_round_trip w s sample_loads_dumps eq_refl eq_refl)
    as (w1 & r & s2 & Hload & Hsave & Hreload & _).
  exists w1, r, s2. split; [exact Hload|]. split; [exact Hsave|].
  split; [exact Hreload|].
  assert (Hrun : load_session w s = (Ok (set_history w (Sample.log_of Sample.hello)), s))
    by (vm_compute; reflexivity).
  rewrite Hrun in Hload. by injection Hload as <-.
Defined.

Lemma message_source_witness :
  handle_command (Sample.terminal EmptyString)
                 (Sample.wrapper_with Sample.greeter [])
                 ["--stream"; "Hello"; "Claude"] (Sample.world_with None) =
  chat (Sample.wrapper_with Sample.greeter []) "Hello Claude" true (Sample.world_with None).
Proof.
  apply (proj2 (message_source (Sample.terminal EmptyString)
                  (Sample.wrapper_with Sample.greeter [])
                  ["--stream"; "Hello"; "Claude"] (Sample.world_with None) eq_refl));
    [reflexivity | discriminate].
Defined.

(** The arguments are not looked at when standard input is piped. *)
Lemma piped_input_wins :
  let w := Sample.wrapper_with Sample.greeter [] in
  let s := Sample.world_with None in
  let args := ["hello"] in
  mode_flag args = false /\
  positional args = ["hello"] /\
  handle_command (Sample.piped "world") w args s = chat w "world" false s /\
  calls (snd (handle_command (Sample.piped "world") w args s)) =
    [Create (Request "claude-3-sonnet-20240229" 4096 [message_dict "user" "world"])] /\
  calls (snd (handle_command (Sample.piped "world") w args s)) <>
  calls (snd (chat w (join " " (positional args)) false s)).
Proof.
  repeat split; try reflexivity. vm_compute. discriminate.
Qed.

Lemma missing_credential_exits_witness :
  main (fun _ => Sample.greeter) ∅ (Sample.terminal EmptyString)
       ["claude"; "Hello"] (Sample.world_with None) =
  (Exit 1,
   World ∅ []
         ["Error: No API key found. Please set CLAUDE_API_KEY or ANTHROPIC_API_KEY" +:+ nl]
         []).
Proof.
  apply (missing_credential_exits (fun _ => Sample.greeter) ∅
           (Sample.terminal EmptyString) ["claude"; "Hello"] (Sample.world_with None));
    left; reflexivity.
Defined.

Lemma chat_keeps_whole_history_witness :
  let w := Sample.wrapper_with Sample.greeter Sample.five_turns in
  let s := Sample.world_with (Some (Sample.dumps (Sample.log_of Sample.five_turns))) in
  let log' := Sample.five_turns ++ [("user", "q6"); ("assistant", "Hi there")] in
  fst (chat w "q6" false s) = Ok (set_history w (Sample.log_of log')) /\
  files (snd (chat w "q6" false s)) !! Sample.session_path =
    Some (Sample.dumps (Sample.log_of log')) /\
  length log' = 12.
Proof.
  intros w s log'.
  destruct (chat_keeps_whole_history w "q6" false s
              (map Sample.stored_message Sample.five_turns)
              ["Hi there" +:+ nl] "Hi there" eq_refl eq_refl
              (conj (ex_intro _ [] eq_refl) eq_refl))
    as (Hrun & _ & _ & _).
  rewrite Hrun. split; [reflexivity|]. split; [|reflexivity].
  cbn [snd files]. apply lookup_insert_eq.
Defined.

Lemma stream_and_create_agree_witness :
  let w := Sample.wrapper_with Sample.greeter Sample.hello in
  fst (chat w "again" true (Sample.world_with None)) =
  fst (chat w "again" false (Sample.world_with None)).
Proof.
  intros w.
  apply (proj1 (stream_and_create_agree w "again" (Sample.world_with None)
                  (map Sample.stored_message Sample.hello) "Hi there" []
                  ["Hi "; "there"] eq_refl eq_refl eq_refl eq_refl)).
Defined.

(** A response with two text blocks: the stream delivers both, [content[0]]
    is the first only. *)
Lemma two_block_response_differs :
  let w := Sample.wrapper_with Sample.two_blocks [] in
  let s := Sample.world_with None in
  messages_create (client w) (request_for w [] "Hello")
    = inr [TextBlock "Hi"; TextBlock " there"] /\
  messages_stream (client w) (request_for w [] "Hello") = (["Hi"; " there"], None) /\
  fst (chat w "Hello" true s) =
    Ok (set_history w (Sample.log_of [("user", "Hello"); ("assistant", "Hi there")])) /\
  fst (chat w "Hello" false s) =
    Ok (set_history w (Sample.log_of [("user", "Hello"); ("assistant", "Hi")])) /\
  fst (chat w "Hello" true s) <> fst (chat w "Hello" false s).
Proof.
  repeat split; try reflexivity. vm_compute. discriminate.
Qed.

Lemma resume_prints_last_two_witness :
  handle_command (Sample.terminal EmptyString)
                 (Sample.wrapper_with Sample.greeter Sample.five_turns)
                 ["--continue"] (Sample.world_with None) =
  (Ok (Sample.wrapper_with Sample.greeter Sample.five_turns),
   World ∅ ["Resuming previous conversation..." +:+ nl;
            "You: q5..." +:+ nl; "Claude: a5..." +:+ nl] [] []).
Proof.
  apply (proj1 (resume_prints_last_two (Sample.terminal EmptyString)
                  (Sample.wrapper_with Sample.greeter Sample.five_turns)
                  ["--continue"] (Sample.world_with None) Sample.five_turns
                  eq_refl eq_refl eq_refl)).
Defined.

(** [--version] is served first: nothing of the stored conversation is
    shown, and for an empty log nothing is said about a previous
    conversation. *)
Lemma version_flag_hides_resume :
  let args := ["--version"; "--continue"] in
  let run ms :=
    handle_command (Sample.terminal EmptyString)
                   (Sample.wrapper_with Sample.greeter ms) args (Sample.world_with None) in
  mem "--continue" args = true /\
  out (snd (run Sample.hello)) = ["Claude CLI Wrapper v1.0.0" +:+ nl] /\
  out (snd (run Sample.hello)) <> resume_report Sample.hello /\
  out (snd (run [])) = ["Claude CLI Wrapper v1.0.0" +:+ nl] /\
  out (snd (run [])) <> ["No previous conversation found" +:+ nl].
Proof.
  repeat split; try reflexivity; vm_compute; discriminate.
Qed.

Lemma empty_message_sends_nothing_witness :
  handle_command (Sample.piped "   ")
                 (Sample.wrapper_with Sample.greeter Sample.hello) []
                 (Sample.world_with None) =
  (Ok (Sample.wrapper_with Sample.greeter Sample.hello), Sample.world_with None).
Proof.
  apply (proj2 (empty_message_sends_nothing (Sample.piped "   ")
                  (Sample.wrapper_with Sample.greeter Sample.hello) []
                  (Sample.world_with None) eq_refl)
               (Sample.world_with None) eq_refl).
Defined.

(** The scenario of the specification: [Hello] on an empty history, answered
    by [Hi there]. *)
Example hello_scenario :
  let r := main (fun _ => Sample.greeter) {[ "CLAUDE_API_KEY" := "sk-test" ]}
                (Sample.terminal EmptyString) ["claude"; "Hello"]
                (Sample.world_with None) in
  exit_code (fst r) = 0%Z /\
  calls (snd r) =
    [Create (Request "claude-3-sonnet-20240229" 4096 [message_dict "user" "Hello"])] /\
  out (snd r) = ["Hi there" +:+ nl] /\
  files (snd r) !! Sample.session_path = Some (Sample.dumps (Sample.log_of Sample.hello)).
Proof. repeat split; vm_compute; reflexivity. Qed.

(** ** Concrete runs of the further properties *)

Lemma at_most_one_request_witness :
  let s := Sample.world_with None in
  calls (snd (handle_command (Sample.piped "hi")
                (Sample.wrapper_with Sample.greeter []) ["--clear"; "hi"] s)) = calls s.
Proof.
  intros s.
  apply (proj2 (at_most_one_request (Sample.piped "hi")
                  (Sample.wrapper_with Sample.greeter []) ["--clear"; "hi"] s)).
  reflexivity.
Defined.

Lemma showing_flags_write_nothing_witness :
  let w := Sample.wrapper_with Sample.greeter Sample.hello in
  let s := Sample.world_with None in
  only_printed s (snd (handle_command (Sample.piped "hi") w ["--resume"; "--stream"] s)).
Proof.
  intros w s.
  apply (proj1 (showing_flags_write_nothing (Sample.piped "hi") w
                  ["--resume"; "--stream"] s eq_refl)).
Defined.

Lemma exit_status_zero_or_one_witness :
  let run := main (fun _ => Sample.greeter) (Sample.environ_with [])
                  (Sample.terminal EmptyString) ["claude"; "Hello"]
                  (Sample.world_with None) in
  fst run = Ok tt /\ err (snd run) = [].
Proof.
  intros run.
  assert (Hrun : fst run = Ok tt) by (vm_compute; reflexivity).
  split; [exact Hrun|].
  exact (proj2 (exit_status_zero_or_one (fun _ => Sample.greeter) (Sample.environ_with [])
                  (Sample.terminal EmptyString) ["claude"; "Hello"]
                  (Sample.world_with None)) Hrun).
Defined.

Lemma stored_non_list_blocks_chat_witness :
  let w := Sample.wrapper_with Sample.greeter [] in
  let s := Sample.world_with (Some "{}") in
  @chat Sample.object_runtime (set_history w (JObj [])) "Hello" false s =
  (Exit 1,
   World (files s) []
         [("Error: " +:+ "'dict' object has no attribute 'append'") +:+ nl] []).
Proof.
  intros w s.
  apply (proj2 (@stored_non_list_blocks_chat Sample.object_runtime w "Hello" false s
                  "{}" (JObj []) eq_refl eq_refl ltac:(discriminate))).
Defined.

Lemma response_without_text_witness :
  let w := Sample.wrapper_with Sample.tool_user [] in
  let s := Sample.world_with None in
  exists e,
    chat w "Hello" false s =
    (Exit 1,
     World (files s) [] [("Error: " +:+ exn_str e) +:+ nl]
           [Create (request_for w [] "Hello")]) /\
    e = Exn "AttributeError" "'ToolUseBlock' object has no attribute 'text'".
Proof.
  intros w s.
  destruct (response_without_text w "Hello" s [] [OtherBlock "ToolUseBlock"]
              eq_refl eq_refl ltac:(discriminate)) as (e & Hrun & _ & He).
  exists e. split; [exact Hrun|]. exact (He "ToolUseBlock" [] eq_refl).
Defined.

Lemma blank_input_sends_nothing_witness :
  let w := Sample.wrapper_with Sample.greeter [] in
  let s := Sample.world_with None in
  fst (handle_command (Sample.piped ("  " +:+ nl)) w ["--stream"] s) = Ok w /\
  only_printed s (snd (handle_command (Sample.piped ("  " +:+ nl)) w ["--stream"] s)).
Proof.
  intros w s.
  apply (proj1 (blank_input_sends_nothing (Sample.piped ("  " +:+ nl)) w ["--stream"] s
                  eq_refl (or_introl eq_refl))).
  reflexivity.
Defined.

Lemma stdin_message_is_trimmed_witness :
  exists message s1 pre post,
    read_message (Sample.piped ("  hi there " +:+ nl)) ["ignored"] (Sample.world_with None)
      = (Ok message, s1) /\
    "  hi there " +:+ nl = pre +:+ message +:+ post /\
    strip message = message.
Proof.
  destruct (stdin_message_is_trimmed (Sample.piped ("  hi there " +:+ nl)) ["ignored"]
              (Sample.world_with None) (or_introl eq_refl))
    as (message & s1 & pre & post & Hread & Heq & _ & _ & _ & _ & Hfix).
  exists message, s1, pre, post. split; [exact Hread|]. split; [exact Heq|exact Hfix].
Defined.

Lemma stream_flag_removed_once_witness :
  let w := Sample.wrapper_with Sample.greeter [] in
  let s := Sample.world_with None in
  positional ["say"; "--stream"; "--stream"] = ["say"; "--stream"] /\
  handle_command (Sample.terminal EmptyString) w ["say"; "--stream"; "--stream"] s =
  chat w "say --stream" true s.
Proof.
  intros w s.
  destruct (stream_flag_removed_once (Sample.terminal EmptyString) w
              ["say"] ["--stream"] s eq_refl) as [Hpos Hrun].
  split; [exact Hpos|].
  apply Hrun; [reflexivity|reflexivity|discriminate].
Defined.

Lemma arguments_are_sent_witness :
  let w := Sample.wrapper_with Sample.greeter [] in
  let s := Sample.world_with None in
  calls (snd (handle_command (Sample.terminal EmptyString) w ["Hello"; "Claude"] s)) =
  [Create (request_for w [] "Hello Claude")].
Proof.
  intros w s.
  apply (proj2 (proj2 (arguments_are_sent (Sample.terminal EmptyString) w
                         ["Hello"; "Claude"] s [] eq_refl eq_refl
                         ltac:(discriminate) eq_refl) ltac:(discriminate))).
Defined.

Lemma session_directory_witness :
  let environ := Sample.environ_with [("CLAUDE_SESSION_DIR", EmptyString)] in
  let w := Wrapper "sk-test" Sample.greeter "claude-3-sonnet-20240229" 4096
                   (JArr []) (session_path environ) in
  session_path environ = "current_session.json" /\
  save_session w (Sample.world_with None) = (Raise no_such_directory, Sample.world_with None).
Proof.
  intros environ w. split; [reflexivity|].
  apply (proj2 (proj2 (session_directory environ)) w (Sample.world_with None) eq_refl).
  reflexivity.
Defined.

Lemma clear_resets_session_witness :
  let w := Sample.wrapper_with Sample.greeter Sample.hello in
  let s := Sample.world_with (Some (Sample.dumps (Sample.log_of Sample.hello))) in
  handle_command (Sample.piped "Hello") w ["--continue"; "--clear"; "Hello"] s =
  (Ok (Sample.wrapper_with Sample.greeter []),
   World (<[Sample.session_path := "[]"]> (files s)) ["Session cleared" +:+ nl] [] []).
Proof.
  intros w s.
  rewrite (proj1 (clear_resets_session (Sample.piped "Hello") w
                    ["--continue"; "--clear"; "Hello"] s eq_refl eq_refl) eq_refl).
  reflexivity.
Defined.



Lemma clear_then_continue_witness :
  let environ := Sample.environ_with [] in
  let s := Sample.world_with (Some (Sample.dumps (Sample.log_of Sample.hello))) in
  exists s1,
    main (fun _ => Sample.greeter) environ (Sample.terminal EmptyString)
         ["claude"; "--clear"] s = (Ok tt, s1) /\
    main (fun _ => Sample.greeter) environ (Sample.terminal EmptyString)
         ["claude"; "--continue"] s1 =
    (Ok tt,
     World (files s1)
           ["Session cleared" +:+ nl; "No previous conversation found" +:+ nl] [] []).
Proof.
  intros environ s.
  destruct (clear_then_continue (fun _ => Sample.greeter) environ
              (Sample.terminal EmptyString) (Sample.terminal EmptyString)
              ["claude"; "--clear"] ["claude"; "--continue"] "sk-test" 4096 s
              eq_refl eq_refl eq_refl ltac:(discriminate) eq_refl
              eq_refl eq_refl eq_refl eq_refl) as [Hfirst Hsecond].
  eexists. split; [exact Hfirst|exact Hsecond].
Defined.

Lemma conversation_carries_over_witness :
  let environ := Sample.environ_with [] in
  let w := Sample.wrapper_with Sample.greeter [] in
  let s := Sample.world_with None in
  exists w1 s1 w2,
    chat w "Hello" true s = (Ok w1, s1) /\
    init (fun _ => Sample.greeter) environ s1 = (Ok w2, s1) /\
    conversation_history w2 = Sample.log_of Sample.hello.
Proof.
  intros environ w s.
  destruct (conversation_carries_over (fun _ => Sample.greeter) environ "sk-test" 4096
              w "Hello" true s [] ["Hi "; "there"] "Hi there"
              eq_refl eq_refl eq_refl ltac:(discriminate) eq_refl eq_refl
              (conj eq_refl eq_refl) eq_refl)
    as (w1 & s1 & w2 & Hchat & Hinit & _ & Hlog & _).
  exists w1, s1, w2. split; [exact Hchat|]. split; [exact Hinit|exact Hlog].
Defined.

Lemma resume_stops_at_malformed_message_witness :
  let w := set_history (Sample.wrapper_with Sample.greeter [])
             (JArr [message_dict "user" "Hello"; JObj [("role", JStr "assistant")]]) in
  handle_command (Sample.terminal EmptyString) w ["--continue"] (Sample.world_with None) =
  (Raise (Exn "KeyError" "'content'"),
   World ∅ ["Resuming previous conversation..." +:+ nl; "You: Hello..." +:+ nl] [] []).
Proof.
  intros w.
  apply (resume_stops_at_malformed_message (Sample.terminal EmptyString) w ["--continue"]
           (Sample.world_with None)
           [message_dict "user" "Hello"; JObj [("role", JStr "assistant")]]
           [("user", "Hello")] [("role", JStr "assistant")] [] "content");
    reflexivity.
Defined.

Lemma reply_lost_without_directory_witness :
  let w := Wrapper "sk-test" Sample.greeter "claude-3-sonnet-20240229" 4096
                   (JArr []) "current_session.json" in
  chat w "Hello" false (Sample.world_with None) =
  (Exit 1,
   World ∅ ["Hi there" +:+ nl]
         ["Error: [Errno 2] No such file or directory: ''" +:+ nl]
         [Create (request_for w [] "Hello")]).
Proof.
  intros w.
  rewrite (reply_lost_without_directory w "Hello" false (Sample.world_with None) []
             ["Hi there" +:+ nl] "Hi there" eq_refl eq_refl
             (conj (ex_intro _ [] eq_refl) eq_refl)).
  reflexivity.
Defined.
